(** * ChronOBS: the room/roster and clock-sync protocol, embedded in Rocq

    A shallow embedding of the protocol code of ChronOBS
    ([src/utils/helpers.py], [src/utils/riot.py], [src/mqtt/client.py],
    [src/ui/views.py], [src/app.py]) and the properties of its
    specification.

    Conventions of the embedding.
    - A Python [str] is the list of its Unicode code points ([list N]).
    - [json.loads] and [json.dumps] belong to Python's library: an inbound
      payload is given by the outcome of [json.loads] on it (a decoded value,
      or [JSONDecodeError]); an outbound payload is the value handed to
      [json.dumps].
    - A Python [float] is written as the rational it stands for; rounding to
      binary64, infinities and NaN are outside the model. What is in the
      model is the range of a float where Python raises for it: an [int] too
      large for a float makes the conversion and the true division raise
      [OverflowError].
    - Tk widgets are reduced to what the protocol reads from them: the text of
      an entry, the value of the shared [StringVar] of the radio group. An
      entry is alive or destroyed: [BaseView.hide] destroys the widgets of the
      view that is left, and reading a destroyed entry raises [TclError].
    - The registry of the [keyboard] library is reduced to the one hotkey of
      the code, registered or not.
    - Calls that leave the process (the paho client, the HTTP requests of
      [utils/riot.py], message boxes) are recorded in a trace of effects; the
      replies of the HTTP endpoints are inputs of the model.
    - [print] calls are dropped. *)

From Stdlib Require Import ZArith QArith String Ascii List.
From stdpp Require Import base option list gmap.

Local Open Scope Z_scope.
#[local] Set Warnings "-register-all".

(** ** Python strings *)

Abbreviation str := (list N).

(** An ASCII literal as a Python string. *)
Definition py (s : string) : list N :=
  map N_of_ascii (list_ascii_of_string s).

Definition between (lo hi c : N) : bool := (N.leb lo c && N.leb c hi)%bool.

(** [bool(s)] for a string: non-empty. *)
Definition truthy (s : str) : bool :=
  match s with [] => false | _ :: _ => true end.

(** [bool(o)] for an [Optional[str]]. *)
Definition truthy_opt (o : option str) : bool :=
  match o with None => false | Some s => truthy s end.

(** [s.split(sep)] for a one-character separator. *)
Fixpoint split (sep : N) (s : str) : list str :=
  match s with
  | [] => [[]]
  | c :: s' =>
      if N.eqb c sep then [] :: split sep s'
      else match split sep s' with
           | [] => [[c]]
           | p :: ps => (c :: p) :: ps
           end
  end.

Definition slash : N := 47%N.

(** [f"{a}/{b}"] for two strings. *)
Definition topic_of (a b : str) : str := a ++ slash :: b.

(** *** Character classes

    Below U+0100 the classes are those of CPython's Unicode database; above,
    they are taken from the interface [Python] further down. *)

Definition latin1_isspace (c : N) : bool :=
  (between 9 13 c || between 28 32 c || N.eqb c 0x85 || N.eqb c 0xA0)%bool.

Definition ascii_isdigit (c : N) : bool := between 48 57 c.
Definition ascii_isupper (c : N) : bool := between 65 90 c.
Definition ascii_islower (c : N) : bool := between 97 122 c.

Definition latin1_isalnum (c : N) : bool :=
  (ascii_isdigit c || ascii_isupper c || ascii_islower c
   || N.eqb c 0xAA || N.eqb c 0xB2 || N.eqb c 0xB3 || N.eqb c 0xB5
   || N.eqb c 0xB9 || N.eqb c 0xBA || between 0xBC 0xBE c
   || between 0xC0 0xD6 c || between 0xD8 0xF6 c || between 0xF8 0xFF c)%bool.

Definition latin1_upper (c : N) : list N :=
  if ascii_islower c then [(c - 32)%N]
  else if N.eqb c 0xB5 then [0x39C%N]
  else if N.eqb c 0xDF then [0x53%N; 0x53%N]
  else if (between 0xE0 0xF6 c || between 0xF8 0xFE c)%bool then [(c - 32)%N]
  else if N.eqb c 0xFF then [0x178%N]
  else [c].

(** ** JSON values, as [json.loads] returns them

    [JObj] holds the items of a [dict]; a key is looked up at its first
    occurrence. *)

Inductive json : Type :=
| JNull
| JBool (b : bool)
| JInt (n : Z)
| JFloat (q : Q)
| JStr (s : str)
| JList (l : list json)
| JObj (items : list (str * json)).

(** ** The part of the Python runtime the code relies on *)

Class Python := {
  (** [int(s)] on a string; [None] is [ValueError] *)
  int_of_str : str -> option Z;
  (** [str(v)] for a decoded value that is not a string *)
  str_of_value : json -> str;
  (** character classes and upper-casing from U+0100 on *)
  unicode_isspace : N -> bool;
  unicode_isalnum : N -> bool;
  unicode_upper : N -> list N
}.

(** ** Exceptions *)

Inductive exn : Type :=
| JSONDecodeError
| KeyError
| AttributeError
| TypeError
| RuntimeError
| RequestException
| TclError
| OverflowError
| Exception.

(** [except (json.JSONDecodeError, KeyError)] *)
Definition is_decode_or_key_error (e : exn) : bool :=
  match e with
  | JSONDecodeError | KeyError => true
  | _ => false
  end.

Inductive outcome (A : Type) : Type :=
| Returns (a : A)
| Raises (e : exn).
Arguments Returns {A} a.
Arguments Raises {A} e.

Section WithPython.
Context `{Python}.

Definition isspace (c : N) : bool :=
  if N.ltb c 0x100 then latin1_isspace c else unicode_isspace c.

Definition isalnum_char (c : N) : bool :=
  if N.ltb c 0x100 then latin1_isalnum c else unicode_isalnum c.

Definition upper_char (c : N) : list N :=
  if N.ltb c 0x100 then latin1_upper c else unicode_upper c.

Fixpoint lstrip (s : str) : str :=
  match s with
  | [] => []
  | c :: s' => if isspace c then lstrip s' else s
  end.

Definition rstrip (s : str) : str := rev (lstrip (rev s)).

(** [s.strip()] *)
Definition strip (s : str) : str := rstrip (lstrip s).

(** [s.upper()] *)
Definition upper (s : str) : str := flat_map upper_char s.

(** [s.isalnum()] *)
Definition isalnum (s : str) : bool := truthy s && forallb isalnum_char s.

(** [f"{v}"] for a decoded value *)
Definition format (v : json) : str :=
  match v with
  | JStr s => s
  | _ => str_of_value v
  end.

(** ** [utils/helpers.py] *)

Definition validate_room_id (room_id : str) : bool :=
  if negb (truthy room_id) then false
  else
    let room_id := upper (strip room_id) in
    (length room_id =? 5)%nat && isalnum room_id.

(** [string.ascii_letters + string.digits + '-'] *)
Definition allowed_chars (c : N) : bool :=
  (ascii_islower c || ascii_isupper c || ascii_isdigit c || N.eqb c 45)%bool.

Definition validate_username (username : str) : bool :=
  if negb (truthy username) then false
  else
    let username := strip username in
    if ((length username <? 3)%nat || (20 <? length username)%nat)%bool then false
    else forallb allowed_chars username.

End WithPython.

(** ** Decoded objects *)

Fixpoint assoc (key : str) (items : list (str * json)) : option json :=
  match items with
  | [] => None
  | (k, v) :: items' => if bool_decide (k = key) then Some v else assoc key items'
  end.

(** [data.get(key, default)]: only a [dict] has the method. *)
Definition dict_get (data : json) (key : str) (fallback : json) : outcome json :=
  match data with
  | JObj items => Returns (default fallback (assoc key items))
  | _ => Raises AttributeError
  end.

(** [v == "literal"] *)
Definition eq_str (v : json) (s : str) : bool :=
  match v with
  | JStr t => bool_decide (t = s)
  | _ => false
  end.

(** ** Arithmetic of [_handle_time_request] *)

Inductive number : Type :=
| NInt (n : Z)
| NFloat (q : Q).

(** The numeric reading of a decoded value ([bool] is a subclass of [int]). *)
Definition as_number (v : json) : option number :=
  match v with
  | JInt n => Some (NInt n)
  | JBool b => Some (NInt (if b then 1 else 0))
  | JFloat q => Some (NFloat q)
  | _ => None
  end.

Definition of_number (x : number) : json :=
  match x with
  | NInt n => JInt n
  | NFloat q => JFloat q
  end.

(** The magnitude from which an [int] has no [float]. The largest float is
    [2^1024 - 2^971]; conversion and true division round to nearest, ties to
    even, and raise [OverflowError] when that passes the largest float. *)
Definition float_limit : Z := 2 ^ 1024 - 2 ^ 970.

(** [float(n)], as Python converts an [int] operand that meets a [float] *)
Definition float_of_int (n : Z) : outcome Q :=
  if float_limit <=? Z.abs n then Raises OverflowError else Returns (inject_Z n).

Definition to_float (x : number) : outcome Q :=
  match x with
  | NInt n => float_of_int n
  | NFloat q => Returns q
  end.

(** A binary operation on numbers: on two [int]s it is exact, otherwise both
    operands become floats first. *)
Definition num_op (on_int : Z -> Z -> Z) (on_float : Q -> Q -> Q) (x y : number)
    : outcome number :=
  match x, y with
  | NInt a, NInt b => Returns (NInt (on_int a b))
  | _, _ =>
      match to_float x, to_float y with
      | Returns p, Returns q => Returns (NFloat (on_float p q))
      | Raises e, _ | _, Raises e => Raises e
      end
  end.

Definition num_add : number -> number -> outcome number := num_op Z.add Qplus.
Definition num_sub : number -> number -> outcome number := num_op Z.sub Qminus.

(** [x + v]: numbers add, two strings and two lists concatenate, anything
    else is a [TypeError]. *)
Definition py_add (x v : json) : outcome json :=
  match as_number x, as_number v with
  | Some a, Some b =>
      match num_add a b with
      | Returns n => Returns (of_number n)
      | Raises e => Raises e
      end
  | _, _ =>
      match x, v with
      | JStr s, JStr t => Returns (JStr (s ++ t))
      | JList l, JList m => Returns (JList (l ++ m))
      | _, _ => Raises TypeError
      end
  end.

(** [x - v]: only numbers subtract. *)
Definition py_sub (x v : json) : outcome number :=
  match as_number x, as_number v with
  | Some a, Some b => num_sub a b
  | _, _ => Raises TypeError
  end.

(** [x / 1000]: true division, the result is a float. The quotient of an
    [int] is rounded once, from the exact value, and raises [OverflowError]
    when it has no float. *)
Definition div1000 (x : number) : outcome Q :=
  match x with
  | NInt n =>
      if 1000 * float_limit <=? Z.abs n then Raises OverflowError
      else Returns (n # 1000)
  | NFloat q => Returns (q / 1000)%Q
  end.

Arguments float_limit : simpl never.
Arguments div1000 : simpl never.

(** ** State of the application ([models/types.py], [app.py]) *)

Inductive AppView : Type := CONNECTION | MODE_SELECTION | PRODUCER | OBSERVER.

(** [mqtt/client.py]: [_client] is [true] once a paho client exists. *)
Record MQTTManager : Type := {
  _client : bool;
  _is_connected : bool
}.

(** A [tk.Entry]: its text while the widget is alive. [destroy()] of the
    widget, or of a frame that holds it, leaves the Python object in place
    with nothing behind it. *)
Inductive entry : Type :=
| Alive (text : str)
| Destroyed.

(** [Entry.get()] *)
Definition entry_get (e : entry) : outcome str :=
  match e with
  | Alive text => Returns text
  | Destroyed => Raises TclError
  end.

(** [ProducerView]. [connected_users] maps a username to its ["time_entry"];
    the ["main_var"] of every entry is the one [StringVar]
    [main_observer_var] of the view, shared by all radio buttons, and is kept
    once, here. [users_frame] tells whether the view holds a frame. *)
Record ProducerView : Type := {
  room_id : option str;
  connected_users : gmap (list N) entry;
  users_frame : bool;
  main_observer_var : option str
}.

(** [ObserverView]: the two entries (once they exist) and the session
    fields. *)
Record ObserverView : Type := {
  room_entry : option entry;
  username_entry : option entry;
  current_room_id : option str;
  current_username : option str
}.

(** What the code does to the outside. *)
Inductive effect : Type :=
| Publish (topic : str) (payload : json)   (* self._client.publish(topic, json.dumps(payload)) *)
| Subscribe (topic : str)                  (* self._client.subscribe(topic) *)
| ShowError (message : string) (cause : option exn)   (* messagebox.showerror *)
| HttpGet                                  (* requests.get(".../replay/playback") *)
| HttpPost (body : json).                  (* requests.post(".../replay/playback", json=body) *)

(** [ChronosPYApp], with the effects performed so far. [hotkey] is the state
    of the [keyboard] library: whether ['alt+ctrl+t'] is registered. *)
Record ChronosPYApp : Type := {
  current_view : AppView;
  mqtt_manager : MQTTManager;
  producer_view : ProducerView;
  observer_view : ObserverView;
  hotkey : bool;
  trace : list effect
}.

(** The replies of the replay endpoint during one call. [playback_get] is
    what [get_current_time()] comes to: the value of
    [response.json()["time"]*1000], or what was raised on the way. The value
    is an [int] for an [int] time, a [float] for a [float] time, and a [str]
    or a [list] when the endpoint sends one of these. *)
Record World : Type := {
  playback_get : outcome json;
  playback_post : outcome unit    (* requests.post(...) and response.json() *)
}.

Definition with_view (v : AppView) (a : ChronosPYApp) : ChronosPYApp :=
  {| current_view := v; mqtt_manager := mqtt_manager a;
     producer_view := producer_view a; observer_view := observer_view a;
     hotkey := hotkey a; trace := trace a |}.

Definition with_mqtt (m : MQTTManager) (a : ChronosPYApp) : ChronosPYApp :=
  {| current_view := current_view a; mqtt_manager := m;
     producer_view := producer_view a; observer_view := observer_view a;
     hotkey := hotkey a; trace := trace a |}.

Definition with_producer (p : ProducerView) (a : ChronosPYApp) : ChronosPYApp :=
  {| current_view := current_view a; mqtt_manager := mqtt_manager a;
     producer_view := p; observer_view := observer_view a;
     hotkey := hotkey a; trace := trace a |}.

Definition with_observer (o : ObserverView) (a : ChronosPYApp) : ChronosPYApp :=
  {| current_view := current_view a; mqtt_manager := mqtt_manager a;
     producer_view := producer_view a; observer_view := o;
     hotkey := hotkey a; trace := trace a |}.

Definition with_hotkey (h : bool) (a : ChronosPYApp) : ChronosPYApp :=
  {| current_view := current_view a; mqtt_manager := mqtt_manager a;
     producer_view := producer_view a; observer_view := observer_view a;
     hotkey := h; trace := trace a |}.

Definition with_effect (e : effect) (a : ChronosPYApp) : ChronosPYApp :=
  {| current_view := current_view a; mqtt_manager := mqtt_manager a;
     producer_view := producer_view a; observer_view := observer_view a;
     hotkey := hotkey a; trace := trace a ++ [e] |}.

(** ** Statements: state passing with exceptions

    A raised exception keeps the state reached so far, as in Python. *)

Definition M (A : Type) : Type := ChronosPYApp -> outcome A * ChronosPYApp.

#[global] Instance M_ret : MRet M := fun A a s => (Returns a, s).

#[global] Instance M_bind : MBind M := fun A B f m s =>
  match m s with
  | (Returns a, s') => f a s'
  | (Raises e, s') => (Raises e, s')
  end.

Definition read {A} (f : ChronosPYApp -> A) : M A := fun s => (Returns (f s), s).
Definition update (f : ChronosPYApp -> ChronosPYApp) : M unit := fun s => (Returns tt, f s).
Definition raise {A} (e : exn) : M A := fun s => (Raises e, s).
Definition perform (e : effect) : M unit := update (with_effect e).
Definition pass : M unit := mret tt.

Definition lift {A} (r : outcome A) : M A :=
  match r with
  | Returns a => mret a
  | Raises e => raise e
  end.

(** [try: body  except <catches> as e: handler e] *)
Definition try_except {A} (body : M A) (catches : exn -> bool) (handler : exn -> M A) : M A :=
  fun s =>
    match body s with
    | (Raises e, s') => if catches e then handler e s' else (Raises e, s')
    | r => r
    end.

(** [except Exception]: every exception of the model is one. *)
Definition any_exception (e : exn) : bool := true.

Definition run {A} (m : M A) (s : ChronosPYApp) : ChronosPYApp := snd (m s).
Definition result {A} (m : M A) (s : ChronosPYApp) : outcome A := fst (m s).

Section Protocol.
Context `{Python}.

(** ** [mqtt/client.py]: [MQTTManager] *)

Definition subscribe (topic : str) : M unit :=
  m ← read mqtt_manager;
  if (negb (_client m) || negb (_is_connected m))%bool then raise RuntimeError
  else perform (Subscribe topic).

Definition publish (topic : str) (payload : json) : M unit :=
  m ← read mqtt_manager;
  if (negb (_client m) || negb (_is_connected m))%bool then raise RuntimeError
  else perform (Publish topic payload).

Definition publish_sync_message (room_id username : str) : M unit :=
  m ← read mqtt_manager;
  if (negb (_client m) || negb (_is_connected m))%bool then raise RuntimeError
  else perform (Publish (topic_of room_id username)
                  (JObj [(py "action", JStr (py "SYNC_REQ"))])).

Definition set_is_connected (b : bool) : M unit :=
  update (fun a => with_mqtt {| _client := _client (mqtt_manager a);
                                _is_connected := b |} a).

(** [broker] is what the paho client answers to [connect] and [loop_start]. *)
Definition connect (broker : outcome unit) : M unit :=
  try_except
    (update (fun a => with_mqtt {| _client := true;
                                   _is_connected := _is_connected (mqtt_manager a) |} a);;
     lift broker)
    any_exception (fun _ => set_is_connected false;; raise Exception).

Definition disconnect : M unit := set_is_connected false.

(** The connection callback of the application only updates a label and, on
    success, starts the timer that shows the mode selection. *)
Definition _on_connect (rc : Z) : M unit := set_is_connected (rc =? 0).

Definition _on_disconnect : M unit := set_is_connected false.

(** ** [utils/riot.py] *)

Definition get_current_time (w : World) : M json :=
  perform HttpGet;; lift (playback_get w).

(** The [body] of [set_time]. *)
Definition playback_body (time : json) : json :=
  JObj [(py "length", JInt 0);
        (py "paused", JBool false);
        (py "seeking", JBool true);
        (py "speed", JInt 1);
        (py "time", time)].

Definition set_time (w : World) (time : json) : M unit :=
  perform (HttpPost (playback_body time));;
  lift (playback_post w).

(** ** [app.py]: the callbacks the views call *)

Definition on_connect_requested (broker : outcome unit) : M unit :=
  try_except (connect broker)
    any_exception (fun e => perform (ShowError "Connection Error" (Some e))).

Definition on_send_time_request (topic : str) (payload : json) : M unit :=
  try_except (publish topic payload)
    any_exception (fun e => perform (ShowError "Error sending TIME_REQ" (Some e))).

(** After the publish, the sent message is only appended to the message log
    of the view. *)
Definition on_send_time_response (topic : str) (payload : json) : M unit :=
  try_except (publish topic payload)
    any_exception (fun e => perform (ShowError "Error sending TIME_RESPONSE" (Some e))).

Definition on_assign_user (username : str) (time_ms : Z) : M unit :=
  try_except
    (view ← read current_view;
     match view with
     | PRODUCER =>
         room ← read (fun a => room_id (producer_view a));
         match room with
         | Some room =>
             if (truthy room && truthy username)%bool then
               publish (topic_of room username)
                 (JObj [(py "action", JStr (py "ASSIGN")); (py "time_ms", JInt time_ms)])
             else pass
         | None => pass
         end
     | _ => pass
     end)
    any_exception (fun e => perform (ShowError "Error sending assignment" (Some e))).

Definition on_room_joined (room_id username : str) : M unit :=
  try_except
    (let topic := topic_of room_id username in
     subscribe topic;;
     publish topic (JObj [(py "action", JStr (py "JOIN"))]))
    any_exception (fun e => perform (ShowError "Error sending join message" (Some e))).

Definition on_sync_requested : M unit :=
  try_except
    (o ← read observer_view;
     match current_room_id o, current_username o with
     | Some room, Some username =>
         if (truthy room && truthy username)%bool then publish_sync_message room username
         else perform (ShowError "You must join a room first" None)
     | _, _ => perform (ShowError "You must join a room first" None)
     end)
    any_exception (fun e => perform (ShowError "Error sending message" (Some e))).

(** ** [ui/views.py]: [ProducerView] *)

Definition update_producer (f : ProducerView -> ProducerView) : M unit :=
  update (fun a => with_producer (f (producer_view a)) a).

(** [BaseView.hide], for the producer view: the widgets of the view are
    destroyed, and with the container the frame of every roster entry and
    its time entry. [connected_users] keeps its keys, each with a destroyed
    entry; [users_frame] and [main_observer_var] keep their objects. No
    message reaches the view before [show] has made a new frame:
    [_on_mqtt_message_received] goes by [current_view]. *)
Definition destroy_roster (v : ProducerView) : ProducerView :=
  {| room_id := room_id v;
     connected_users := (fun _ => Destroyed) <$> connected_users v;
     users_frame := users_frame v;
     main_observer_var := main_observer_var v |}.

Definition ProducerView_hide : M unit := update_producer destroy_roster.

(** [generate_room_id()] draws at random: its result is the argument. The
    roster is not touched: [show] makes a new frame and a new variable and
    leaves [connected_users] as it is. *)
Definition ProducerView_show (generated : str) : M unit :=
  update_producer (fun v =>
    {| room_id := Some generated;
       connected_users := connected_users v;
       users_frame := true;
       main_observer_var := Some [] |}).

(** [username in self.connected_users] *)
Definition is_user (v : ProducerView) (username : str) : bool :=
  match connected_users v !! username with
  | Some _ => true
  | None => false
  end.

Definition add_user (username : str) : M unit :=
  v ← read producer_view;
  if (is_user v username || negb (users_frame v)
      || negb (bool_decide (is_Some (main_observer_var v))))%bool
  then pass
  else update_producer (fun v =>
    {| room_id := room_id v;
       connected_users := <[username := Alive (py "1000")]> (connected_users v);
       users_frame := users_frame v;
       main_observer_var := main_observer_var v |}).

(** [destroy()] of a frame that is already destroyed does nothing. *)
Definition remove_user (username : str) : M unit :=
  v ← read producer_view;
  if negb (is_user v username) then pass
  else update_producer (fun v =>
    {| room_id := room_id v;
       connected_users := delete username (connected_users v);
       users_frame := users_frame v;
       main_observer_var :=
         match main_observer_var v with
         | Some main => if bool_decide (main = username) then Some [] else Some main
         | None => None
         end |}).

(** The [try] catches [ValueError], which [int] raises; the [TclError] of a
    destroyed entry is not one and goes to the caller. *)
Definition get_user_time (v : ProducerView) (username : str) : outcome (option Z) :=
  match connected_users v !! username with
  | None => Returns None
  | Some time_entry =>
      match entry_get time_entry with
      | Returns time_str => Returns (Some (default 1000 (int_of_str time_str)))
      | Raises e => Raises e
      end
  end.

Definition get_main_observer (v : ProducerView) : option str :=
  match main_observer_var v with
  | Some main => if truthy main then Some main else None
  | None => None
  end.

(** The ["is_main_observer"] of [get_all_users_config]. *)
Definition is_main_observer (v : ProducerView) (username : str) : bool :=
  bool_decide (Some username = get_main_observer v).

(** The operator selects the radio button of [username]: Tk stores the value
    of the button in the shared variable. The button is made with the entry
    and destroyed with its frame; the selection is allowed here for every
    key of the roster, which is no less than the screen allows. *)
Definition select_main_observer (username : str) : M unit :=
  v ← read producer_view;
  if (is_user v username && bool_decide (is_Some (main_observer_var v)))%bool then
    update_producer (fun v =>
      {| room_id := room_id v;
         connected_users := connected_users v;
         users_frame := users_frame v;
         main_observer_var := Some username |})
  else pass.

(** The operator replaces the text of the time entry of [username], which
    takes an entry that is on screen. *)
Definition edit_time_entry (username text : str) : M unit :=
  v ← read producer_view;
  match connected_users v !! username with
  | Some (Alive _) =>
      update_producer (fun v =>
        {| room_id := room_id v;
           connected_users := <[username := Alive text]> (connected_users v);
           users_frame := users_frame v;
           main_observer_var := main_observer_var v |})
  | _ => pass
  end.

Definition _on_assign_clicked (username : str) : M unit :=
  v ← read producer_view;
  time_ms ← lift (get_user_time v username);
  match time_ms with
  | Some time_ms => on_assign_user username time_ms
  | None => pass
  end.

Definition _handle_sync_request (topic : str) : M unit :=
  let parts := split slash topic in
  if (length parts <? 2)%nat then pass
  else
    let requester := List.last parts [] in
    v ← read producer_view;
    match get_main_observer v with
    | None => pass
    | Some main_observer =>
        match room_id v with
        | None => pass
        | Some room =>
            if negb (truthy room) then pass
            else
              requester_delay ← lift (get_user_time v requester);
              main_observer_delay ← lift (get_user_time v main_observer);
              let requester_delay := default 1000 requester_delay in
              let main_observer_delay := default 1000 main_observer_delay in
              on_send_time_request (topic_of room main_observer)
                (JObj [(py "action", JStr (py "TIME_REQ"));
                       (py "requester", JStr requester);
                       (py "requester_delay", JInt requester_delay);
                       (py "main_observer_delay", JInt main_observer_delay)])
        end
    end.

(** [json.loads(payload)], from its outcome. *)
Definition json_loads (payload : option json) : M json :=
  match payload with
  | Some data => mret data
  | None => raise JSONDecodeError
  end.

Definition add_message (topic : str) (payload : option json) : M unit :=
  try_except
    (data ← json_loads payload;
     action ← lift (dict_get data (py "action") JNull);
     if eq_str action (py "SYNC_REQ") then _handle_sync_request topic
     else if (eq_str action (py "JOIN") || eq_str action (py "LEAVE"))%bool then
       let parts := split slash topic in
       if (2 <=? length parts)%nat then
         let username := List.last parts [] in
         if eq_str action (py "JOIN") then add_user username
         else if eq_str action (py "LEAVE") then remove_user username
         else pass
       else pass
     else pass)
    is_decode_or_key_error (fun _ => pass).

(** ** [ui/views.py]: [ObserverView] *)

Definition update_observer (f : ObserverView -> ObserverView) : M unit :=
  update (fun a => with_observer (f (observer_view a)) a).

Definition ObserverView_show : M unit :=
  update_observer (fun o =>
    {| room_entry := Some (Alive []); username_entry := Some (Alive []);
       current_room_id := current_room_id o;
       current_username := current_username o |}).

(** [BaseView.hide], for the observer view: the two entries go with the
    frame that holds them; the session fields are not touched. *)
Definition destroy_join_form (o : ObserverView) : ObserverView :=
  {| room_entry := (fun _ => Destroyed) <$> room_entry o;
     username_entry := (fun _ => Destroyed) <$> username_entry o;
     current_room_id := current_room_id o;
     current_username := current_username o |}.

(** [ObserverView.hide]: [keyboard.remove_hotkey('alt+ctrl+t')], then
    [BaseView.hide]. The hotkey is registered once, by [__init__];
    [remove_hotkey] looks it up in the registry of the library and raises
    [KeyError] when it is not there. *)
Definition ObserverView_hide : M unit :=
  registered ← read hotkey;
  if negb registered then raise KeyError
  else
    update (with_hotkey false);;
    update_observer destroy_join_form.

Definition _on_join_clicked : M unit :=
  o ← read observer_view;
  match room_entry o, username_entry o with
  | Some room_widget, Some username_widget =>
      room_text ← lift (entry_get room_widget);
      username_text ← lift (entry_get username_widget);
      let room := upper (strip room_text) in
      let username := strip username_text in
      if negb (validate_room_id room) then
        perform (ShowError "Room ID must be 5 alphanumeric characters" None)
      else if negb (validate_username username) then
        perform (ShowError "Username must be 3-20 characters and can only contain letters, numbers and hyphens" None)
      else
        update_observer (fun o =>
          {| room_entry := room_entry o; username_entry := username_entry o;
             current_room_id := Some room;
             current_username := Some username |});;
        on_room_joined room username
  | _, _ => pass
  end.

Definition _handle_time_request (w : World) (original_topic : str)
    (requester requester_delay main_observer_delay : json) : M unit :=
  o ← read observer_view;
  match current_room_id o with
  | Some room =>
      if (negb (truthy room) || negb (truthy_opt (current_username o)))%bool then pass
      else
        actual_time ← get_current_time w;
        let response_topic := topic_of room (format requester) in
        sum ← lift (py_add actual_time requester_delay);
        difference ← lift (py_sub sum main_observer_delay);
        value ← lift (div1000 difference);
        on_send_time_response response_topic
          (JObj [(py "action", JStr (py "SYNC_RESPONSE"));
                 (py "value", JFloat value)])
  | None => pass
  end.

Definition add_received_message (w : World) (topic : str) (payload : option json) : M unit :=
  try_except
    (data ← json_loads payload;
     action ← lift (dict_get data (py "action") JNull);
     if eq_str action (py "TIME_REQ") then
       requester ← lift (dict_get data (py "requester") (JStr (py "unknown")));
       requester_delay ← lift (dict_get data (py "requester_delay") (JInt 0));
       main_observer_delay ← lift (dict_get data (py "main_observer_delay") (JInt 0));
       _handle_time_request w topic requester requester_delay main_observer_delay
     else if eq_str action (py "ASSIGN") then
       _ ← lift (dict_get data (py "time_ms") (JInt 0));
       pass
     else if eq_str action (py "SYNC_RESPONSE") then
       time_value ← lift (dict_get data (py "value") (JInt 0));
       set_time w time_value
     else pass)
    is_decode_or_key_error (fun _ => pass).

(** ** [app.py]: [ChronosPYApp] and the remaining callbacks *)

(** [self.views[self.current_view].hide()]: every view is in [self.views]. *)
Definition hide (view : AppView) : M unit :=
  match view with
  | PRODUCER => ProducerView_hide
  | OBSERVER => ObserverView_hide
  | CONNECTION | MODE_SELECTION => pass
  end.

(** The view on screen is hidden first; when its [hide] raises, the view is
    not changed and nothing is shown. *)
Definition _show_view (generated : str) (view : AppView) : M unit :=
  current ← read current_view;
  hide current;;
  update (with_view view);;
  match view with
  | PRODUCER => ProducerView_show generated
  | OBSERVER => ObserverView_show
  | _ => pass
  end.

Definition _setup_producer_mode : M unit :=
  room ← read (fun a => room_id (producer_view a));
  match room with
  | Some room =>
      if truthy room then
        try_except (subscribe (room ++ py "/#"))
          any_exception (fun e => perform (ShowError "Error subscribing to topic" (Some e)))
      else pass
  | None => pass
  end.

Definition on_mode_selected (generated mode : str) : M unit :=
  if bool_decide (mode = py "producer") then
    _show_view generated PRODUCER;; _setup_producer_mode
  else if bool_decide (mode = py "observer") then
    _show_view generated OBSERVER
  else pass.

Definition on_remove_user (username : str) : M unit :=
  try_except
    (view ← read current_view;
     match view with
     | PRODUCER =>
         room ← read (fun a => room_id (producer_view a));
         match room with
         | Some room =>
             if (truthy room && truthy username)%bool then
               publish (topic_of room username) (JObj [(py "action", JStr (py "LEAVE"))]);;
               remove_user username
             else pass
         | None => pass
         end
     | _ => pass
     end)
    any_exception (fun e => perform (ShowError "Error removing user" (Some e))).

Definition _on_mqtt_message_received (w : World) (topic : str) (payload : option json) : M unit :=
  view ← read current_view;
  match view with
  | PRODUCER => add_message topic payload
  | OBSERVER => add_received_message w topic payload
  | _ => pass
  end.

(** [MQTTManager._on_message]: the entry point of every inbound delivery. *)
Definition _on_message (w : World) (topic : str) (payload : option json) : M unit :=
  try_except (_on_mqtt_message_received w topic payload)
    any_exception (fun _ => pass).

(** The session fields are left as they are; [_show_view] is outside the
    [try]. *)
Definition on_back_requested : M unit :=
  view ← read current_view;
  match view with
  | OBSERVER =>
      o ← read observer_view;
      match current_room_id o, current_username o with
      | Some room, Some username =>
          if (truthy room && truthy username)%bool then
            try_except (publish (topic_of room username) (JObj [(py "action", JStr (py "LEAVE"))]))
              any_exception (fun _ => pass)
          else pass
      | _, _ => pass
      end
  | _ => pass
  end;;
  _show_view [] MODE_SELECTION.

Definition on_disconnect_requested : M unit :=
  view ← read current_view;
  match view with
  | OBSERVER =>
      o ← read observer_view;
      match current_room_id o, current_username o with
      | Some room, Some username =>
          if (truthy room && truthy username)%bool then
            try_except (publish (topic_of room username) (JObj [(py "action", JStr (py "LEAVE"))]))
              any_exception (fun _ => pass)
          else pass
      | _, _ => pass
      end
  | _ => pass
  end;;
  disconnect;;
  _show_view [] CONNECTION.

(** The operator replaces the text of the two entries of the observer view,
    which takes entries that are on screen. *)
Definition edit_join_entries (room_text username_text : str) : M unit :=
  o ← read observer_view;
  match room_entry o, username_entry o with
  | Some (Alive _), Some (Alive _) =>
      update_observer (fun o =>
        {| room_entry := Some (Alive room_text);
           username_entry := Some (Alive username_text);
           current_room_id := current_room_id o;
           current_username := current_username o |})
  | _, _ => pass
  end.

(** ** What can happen to a running application *)

Inductive event : Type :=
| Deliver (w : World) (topic : str) (payload : option json)  (* the broker delivers a message *)
| ClickMainObserver (username : str)   (* the radio button of an entry *)
| ClickRemove (username : str)         (* the remove button of an entry *)
| ClickAssign (username : str)         (* the assign button of an entry *)
| EditTime (username text : str)       (* typing in the time entry *)
| RemoveUser (username : str)          (* the callback on_remove_user *)
| ModeSelected (generated mode : str)  (* a button of the mode selection *)
| BackRequested                        (* the back button *)
| EditJoin (room_text username_text : str)  (* typing in the observer view *)
| ClickJoin                            (* the JOIN button *)
| ClickSync                            (* the SYNC button or its hotkey *)
| ClickConnect (broker : outcome unit) (* the CONNECT button, with a valid configuration *)
| Connected (rc : Z)                   (* the broker answers the connection *)
| ModeSelectionTimer                   (* one second after a successful connection *)
| ClickDisconnect                      (* back from the mode selection *)
| ConnectionLost.                      (* the broker connection drops *)

Definition handler (ev : event) : M unit :=
  match ev with
  | Deliver w topic payload => _on_message w topic payload
  | ClickMainObserver username => select_main_observer username
  | ClickRemove username => remove_user username
  | ClickAssign username => _on_assign_clicked username
  | EditTime username text => edit_time_entry username text
  | RemoveUser username => on_remove_user username
  | ModeSelected generated mode => on_mode_selected generated mode
  | BackRequested => on_back_requested
  | EditJoin room_text username_text => edit_join_entries room_text username_text
  | ClickJoin => _on_join_clicked
  | ClickSync => on_sync_requested
  | ClickConnect broker => on_connect_requested broker
  | Connected rc => _on_connect rc
  | ModeSelectionTimer => _show_view [] MODE_SELECTION
  | ClickDisconnect => on_disconnect_requested
  | ConnectionLost => _on_disconnect
  end.

Definition after (evs : list event) (a : ChronosPYApp) : ChronosPYApp :=
  fold_left (fun a ev => run (handler ev) a) evs a.

End Protocol.

(** [ChronosPYApp.__init__]; [ObserverView.__init__] registers the hotkey. *)
Definition initial_app : ChronosPYApp :=
  {| current_view := CONNECTION;
     mqtt_manager := {| _client := false; _is_connected := false |};
     producer_view := {| room_id := None; connected_users := ∅;
                         users_frame := false; main_observer_var := None |};
     observer_view := {| room_entry := None; username_entry := None;
                         current_room_id := None; current_username := None |};
     hotkey := true;
     trace := [] |}.

(** ** Vocabulary of the properties *)

(** The messages handed to the transport, oldest first. *)
Definition published (tr : list effect) : list (str * json) :=
  omap (fun e => match e with Publish t p => Some (t, p) | _ => None end) tr.

(** The producer view is on screen with its roster widgets. *)
Definition producing (a : ChronosPYApp) : Prop :=
  current_view a = PRODUCER ∧
  users_frame (producer_view a) = true ∧
  is_Some (main_observer_var (producer_view a)).

(** The transport accepts a publish. *)
Definition online (a : ChronosPYApp) : bool :=
  (_client (mqtt_manager a) && _is_connected (mqtt_manager a))%bool.

(** The usernames of the roster that are the main observer. *)
Definition main_observers (v : ProducerView) : list str :=
  filter (fun u => is_main_observer v u = true) (map fst (map_to_list (connected_users v))).

(** The roster entries of a username. *)
Definition entries_of (v : ProducerView) (username : str) : list (str * entry) :=
  filter (fun e => fst e = username) (map_to_list (connected_users v)).

(** [^[A-Z0-9]{5}$] *)
Definition room_id_pattern (s : str) : bool :=
  ((length s =? 5)%nat && forallb (fun c => ascii_isupper c || ascii_isdigit c)%bool s)%bool.

Definition is_ascii (s : str) : Prop := Forall (fun c => (c < 0x80)%N) s.

(** A small runtime to evaluate the model on examples: decimal digits for
    [int], nothing beyond U+00FF. *)
Fixpoint digits_value (acc : Z) (s : str) : option Z :=
  match s with
  | [] => Some acc
  | c :: s' => if ascii_isdigit c then digits_value (10 * acc + (Z.of_N c - 48)) s' else None
  end.

Definition example_python : Python :=
  {| int_of_str := fun s => if truthy s then digits_value 0 s else None;
     str_of_value := fun _ => py "?";
     unicode_isspace := fun _ => false;
     unicode_isalnum := fun _ => false;
     unicode_upper := fun c => [c] |}.

(** Both session fields of the observer are set and non-empty: the guard of
    [_handle_time_request]. *)
Definition has_session (o : ObserverView) : bool :=
  (truthy_opt (current_room_id o) && truthy_opt (current_username o))%bool.

(** *** Invariants *)

(** [preserves P m]: the statement [m] keeps the invariant [P], whether it
    returns or raises. *)
Definition preserves {A} (P : ChronosPYApp -> Prop) (m : M A) : Prop :=
  forall s, P s -> P (run m s).

(** A property of the producer view alone survives every statement that
    leaves the view as it is. *)
Definition of_roster (Q : ProducerView -> Prop) (a : ChronosPYApp) : Prop :=
  Q (producer_view a).

(** The main observer, when there is one, is in the roster. *)
Definition main_in_roster (v : ProducerView) : Prop :=
  forall m, get_main_observer v = Some m -> is_user v m = true.

(** While the producer view is shown, its roster widgets exist. *)
Definition widgets_exist (a : ChronosPYApp) : Prop :=
  current_view a = PRODUCER ->
  users_frame (producer_view a) = true /\
  is_Some (main_observer_var (producer_view a)).

(** What every reachable roster satisfies: the main observer, when there is
    one, has an entry, and entries exist only once the radio group does. *)
Definition roster_inv (v : ProducerView) : Prop :=
  main_in_roster v /\
  (forall u, is_user v u = true -> is_Some (main_observer_var v)).

(** Upper-casing of an ASCII character. *)
Definition ascii_up (c : N) : N := if ascii_islower c then (c - 32)%N else c.

(** *** Example states *)

Definition example_world : World :=
  {| playback_get := Returns (JInt 120000); playback_post := Returns tt |}.

Definition example_online : MQTTManager := {| _client := true; _is_connected := true |}.

(** An observer that has opened the observer view and not joined. *)
Definition example_observer : ChronosPYApp :=
  {| current_view := OBSERVER;
     mqtt_manager := example_online;
     producer_view := producer_view initial_app;
     observer_view := {| room_entry := Some (Alive []); username_entry := Some (Alive []);
                         current_room_id := None; current_username := None |};
     hotkey := true;
     trace := [] |}.

(** The observer bob, joined to room ABCDE. *)
Definition example_bob : ChronosPYApp :=
  with_observer {| room_entry := Some (Alive (py "abcde"));
                   username_entry := Some (Alive (py "bob"));
                   current_room_id := Some (py "ABCDE");
                   current_username := Some (py "bob") |} example_observer.

(** A producer hosting room ABCDE with alice (delay 500) and bob (delay
    1000, main observer) in the roster. *)
Definition example_producer : ChronosPYApp :=
  {| current_view := PRODUCER;
     mqtt_manager := example_online;
     producer_view := {| room_id := Some (py "ABCDE");
                         connected_users :=
                           <[py "alice" := Alive (py "500")]>
                             (<[py "bob" := Alive (py "1000")]> ∅);
                         users_frame := true;
                         main_observer_var := Some (py "bob") |};
     observer_view := observer_view initial_app;
     hotkey := true;
     trace := [] |}.

(** The room ABCDE just opened by a connected producer. *)
Definition example_room : ChronosPYApp :=
  {| current_view := PRODUCER;
     mqtt_manager := example_online;
     producer_view := {| room_id := Some (py "ABCDE"); connected_users := ∅;
                         users_frame := true; main_observer_var := Some [] |};
     observer_view := observer_view initial_app;
     hotkey := true;
     trace := [Subscribe (py "ABCDE/#")] |}.

Definition example_join : list (str * json) := [(py "action", JStr (py "JOIN"))].
Definition example_sync_req : list (str * json) := [(py "action", JStr (py "SYNC_REQ"))].
Definition example_sync_response : list (str * json) :=
  [(py "action", JStr (py "SYNC_RESPONSE"))].

Definition example_time_req_items : list (str * json) :=
  [(py "action", JStr (py "TIME_REQ"));
   (py "requester", JStr (py "alice"));
   (py "requester_delay", JInt 500);
   (py "main_observer_delay", JInt 1000)].

(** A replay endpoint that cannot be reached. *)
Definition example_unreachable : World :=
  {| playback_get := Raises RequestException; playback_post := Raises RequestException |}.

(** Five times the letter E with an acute accent, U+00C9. *)
Definition example_accented : str := [0xC9; 0xC9; 0xC9; 0xC9; 0xC9]%N.

(** ** More of [utils/helpers.py] and [app.py] *)

(** [string.ascii_uppercase + string.digits] *)
Definition characters : str := py "ABCDEFGHIJKLMNOPQRSTUVWXYZ0123456789".

(** [generate_room_id]: [random.choices(characters, k=length)] draws [length]
    one-character strings out of [characters]; the draw is the argument, and
    [''.join] concatenates it. *)
Definition generate_room_id (choices : list str) : str := concat choices.

(** What [random.choices(characters, k=5)] can return. *)
Definition is_draw (choices : list str) : Prop :=
  length choices = 5%nat /\ Forall (fun c => exists x, x ∈ characters /\ c = [x]) choices.

Section MoreCode.
Context `{Python}.

Definition validate_mqtt_config (url port : str) : bool * option string :=
  if (negb (truthy url) || negb (truthy (strip url)))%bool then
    (false, Some "The broker URL is required"%string)
  else if (negb (truthy port) || negb (truthy (strip port)))%bool then
    (false, Some "The port is required"%string)
  else
    match int_of_str port with
    | Some port_int =>
        if ((port_int <=? 0) || (65535 <? port_int))%bool then
          (false, Some "The port must be between 1 and 65535"%string)
        else (true, None)
    | None => (false, Some "The port must be a valid number"%string)
    end.

End MoreCode.


(** The subscriptions and publishes of a trace, oldest first. *)
Definition is_network (e : effect) : bool :=
  match e with
  | Publish _ _ | Subscribe _ => true
  | _ => false
  end.

Definition network (tr : list effect) : list effect := List.filter is_network tr.

(** The transport is down and the network has seen [n] so far. *)
Definition offline (n : list effect) (a : ChronosPYApp) : Prop :=
  online a = false /\ network (trace a) = n.

(** A draw of [random.choices] and two inbound payloads for the examples. *)
Definition example_draw : list str := [py "A"; py "B"; py "C"; py "1"; py "2"].

Definition example_leave : list (str * json) := [(py "action", JStr (py "LEAVE"))].


Definition example_bare_time_req : list (str * json) := [(py "action", JStr (py "TIME_REQ"))].

(** The events that lead a started application to [example_room]. *)
Definition example_start : list event :=
  [ClickConnect (Returns tt); Connected 0; ModeSelectionTimer;
   ModeSelected (py "ABCDE") (py "producer")].

(** A producer that hosts room ABCDE, where alice joins and gets the delay
    500, goes back to the mode selection and opens a second room, FGHIJ.
    There alice joins again, bob joins, and bob is made the main observer. *)
Definition example_second_room : list event :=
  example_start ++
  [Deliver example_world (py "ABCDE/alice") (Some (JObj example_join));
   EditTime (py "alice") (py "500");
   BackRequested;
   ModeSelected (py "FGHIJ") (py "producer");
   Deliver example_world (py "FGHIJ/alice") (Some (JObj example_join));
   Deliver example_world (py "FGHIJ/bob") (Some (JObj example_join));
   ClickMainObserver (py "bob")].




(** An observer that has left the observer view once and opened it again:
    the hotkey is gone. *)
Definition example_second_visit : list event :=
  [ClickConnect (Returns tt); Connected 0; ModeSelectionTimer;
   ModeSelected [] (py "observer");
   BackRequested;
   ModeSelected [] (py "observer");
   EditJoin (py "abcde") (py "bob");
   ClickJoin].

(** * Properties *)

Ltac unfold_m :=
  unfold mbind, M_bind, mret, M_ret, read, update, raise, perform, pass, lift,
    try_except, run, result in *.

Lemma published_snoc_other (tr : list effect) (e : effect) :
  (forall t p, e <> Publish t p) -> published (tr ++ [e]) = published tr.
Proof.
  intros Hne. unfold published. rewrite omap_app. simpl.
  destruct e; try (rewrite app_nil_r; reflexivity).
  exfalso. eapply Hne. reflexivity.
Qed.

Section Observer.
Context `{Python}.

(** C10. An inbound SYNC_RESPONSE object without a [value] field is not
    dropped by the observer: the time-application sink is called with the
    default value 0, with paused = false and seeking = true. *)
Theorem sync_response_without_value_applies_zero
    (a : ChronosPYApp) (w : World) (topic : str) (items : list (str * json)) :
  current_view a = OBSERVER ->
  assoc (py "action") items = Some (JStr (py "SYNC_RESPONSE")) ->
  assoc (py "value") items = None ->
  trace (run (_on_message w topic (Some (JObj items))) a) =
    trace a ++ [HttpPost (JObj [(py "length", JInt 0); (py "paused", JBool false);
                                (py "seeking", JBool true); (py "speed", JInt 1);
                                (py "time", JInt 0)])].
Proof.
  intros Hview Haction Hvalue.
  unfold _on_message, _on_mqtt_message_received, add_received_message,
    json_loads, set_time, dict_get.
  unfold_m. rewrite Hview, Haction, Hvalue. simpl.
  destruct (playback_post w) as [[]|e]; simpl; [reflexivity|].
  destruct e; reflexivity.
Qed.

(** C5. When the query to the authoritative time source raises during an
    inbound TIME_REQ, no message is published, and the exception does not
    leave the inbound path: [_on_message] returns normally and the
    application keeps its state. *)
Theorem time_source_failure_drops_response
    (a : ChronosPYApp) (w : World) (topic : str) (items : list (str * json)) (e : exn) :
  assoc (py "action") items = Some (JStr (py "TIME_REQ")) ->
  playback_get w = Raises e ->
  let a' := run (_on_message w topic (Some (JObj items))) a in
  result (_on_message w topic (Some (JObj items))) a = Returns tt /\
  published (trace a') = published (trace a) /\
  current_view a' = current_view a /\
  mqtt_manager a' = mqtt_manager a /\
  producer_view a' = producer_view a /\
  observer_view a' = observer_view a.
Proof.
  intros Haction Hget.
  unfold _on_message, _on_mqtt_message_received, add_received_message, add_message,
    _handle_time_request, get_current_time, json_loads, dict_get.
  unfold_m. rewrite Haction. simpl.
  destruct (current_view a) eqn:Hview; simpl; try (repeat split; congruence).
  destruct (current_room_id (observer_view a)) as [room|]; simpl;
    [|repeat split; congruence].
  destruct (negb (truthy room) || negb (truthy_opt (current_username (observer_view a))))%bool;
    simpl; [repeat split; congruence|].
  rewrite Hget. simpl.
  destruct e; simpl; repeat split;
    first [congruence | apply published_snoc_other; discriminate].
Qed.

(** The division of [_handle_time_request] on an [int]. *)
Lemma div1000_int (n : Z) :
  div1000 (NInt n) =
    if 1000 * float_limit <=? Z.abs n then Raises OverflowError else Returns (n # 1000).
Proof. reflexivity. Qed.

(** [_handle_time_request] in a session, on integers: the query, then the
    publish, unless the quotient has no float. *)
Lemma handle_time_request_runs
    (a : ChronosPYApp) (w : World) (topic room username : str) (requester : json)
    (dR dM T : Z) :
  online a = true ->
  current_room_id (observer_view a) = Some room -> truthy room = true ->
  current_username (observer_view a) = Some username -> truthy username = true ->
  playback_get w = Returns (JInt T) ->
  _handle_time_request w topic requester (JInt dR) (JInt dM) a =
    if 1000 * float_limit <=? Z.abs (T + dR - dM)
    then (Raises OverflowError, with_effect HttpGet a)
    else (Returns tt,
          with_effect
            (Publish (topic_of room (format requester))
               (JObj [(py "action", JStr (py "SYNC_RESPONSE"));
                      (py "value", JFloat ((T + dR - dM) # 1000))]))
            (with_effect HttpGet a)).
Proof.
  intros Honline Hroom Hr Huser Hu Hget.
  unfold online in Honline. apply andb_true_iff in Honline as [Hc Hi].
  unfold _handle_time_request, get_current_time, on_send_time_response, publish.
  unfold_m. rewrite Hroom, Huser. simpl. rewrite Hr, Hu, Hget. simpl.
  rewrite div1000_int.
  destruct (1000 * float_limit <=? Z.abs (T + dR - dM)); simpl; [reflexivity|].
  rewrite Hc, Hi. reflexivity.
Qed.



(** C8, at a payload that is valid JSON and not an object. The empty array
    makes both inbound handlers raise [AttributeError] to their caller:
    nothing is published and the state is kept, but the error is not
    swallowed by the handler. It is caught one level up, by [_on_message]. *)
Theorem array_payload_raises_in_handlers
    (a : ChronosPYApp) (w : World) (topic : str) :
  add_message topic (Some (JList [])) a = (Raises AttributeError, a) /\
  add_received_message w topic (Some (JList [])) a = (Raises AttributeError, a) /\
  _on_message w topic (Some (JList [])) a = (Returns tt, a).
Proof.
  repeat split.
  unfold _on_message, _on_mqtt_message_received. unfold_m.
  destruct (current_view a); reflexivity.
Qed.

(** What holds of C8: a payload that is not JSON, and an object without an
    action the role knows, are dropped by the handler without effect. *)
Lemma malformed_payload_is_dropped (a : ChronosPYApp) (w : World) (topic : str) :
  add_message topic None a = (Returns tt, a) /\
  add_received_message w topic None a = (Returns tt, a).
Proof. split; reflexivity. Qed.

Lemma unknown_action_is_dropped
    (a : ChronosPYApp) (w : World) (topic : str) (items : list (str * json)) :
  let action := default JNull (assoc (py "action") items) in
  (eq_str action (py "SYNC_REQ") = false -> eq_str action (py "JOIN") = false ->
   eq_str action (py "LEAVE") = false ->
   add_message topic (Some (JObj items)) a = (Returns tt, a)) /\
  (eq_str action (py "TIME_REQ") = false -> eq_str action (py "ASSIGN") = false ->
   eq_str action (py "SYNC_RESPONSE") = false ->
   add_received_message w topic (Some (JObj items)) a = (Returns tt, a)).
Proof.
  split; intros H1 H2 H3.
  - unfold add_message, json_loads, dict_get. unfold_m. simpl.
    rewrite H1, H2, H3. reflexivity.
  - unfold add_received_message, json_loads, dict_get. unfold_m. simpl.
    rewrite H1, H2, H3. reflexivity.
Qed.

End Observer.

(** ** The producer side *)

Lemma split_without_separator (s : str) :
  slash ∉ s -> split slash s = [s].
Proof.
  induction s as [|c s IH]; intros Hs; simpl; [reflexivity|].
  apply not_elem_of_cons in Hs as [Hc Hs].
  destruct (N.eqb_spec c slash) as [->|_]; [congruence|].
  rewrite IH by assumption. reflexivity.
Qed.

(** The last segment of [prefix/R] is [R], and there is a segment before it. *)
Lemma split_topic (prefix R : str) :
  slash ∉ R ->
  exists first others, split slash (topic_of prefix R) = first :: others ++ [R].
Proof.
  intros HR. unfold topic_of.
  induction prefix as [|c prefix (first & others & IH)]; simpl.
  - rewrite ?N.eqb_refl, split_without_separator by assumption.
    exists [], []. reflexivity.
  - rewrite IH. destruct (N.eqb c slash).
    + exists [], (first :: others). reflexivity.
    + exists (c :: first), others. reflexivity.
Qed.

Lemma last_snoc_cons {A} (x y d : A) (l : list A) : List.last (x :: l ++ [y]) d = y.
Proof.
  change (x :: l ++ [y]) with ((x :: l) ++ [y]). apply last_last.
Qed.

Lemma topic_parts (prefix R : str) :
  slash ∉ R ->
  (length (split slash (topic_of prefix R)) <? 2)%nat = false /\
  (2 <=? length (split slash (topic_of prefix R)))%nat = true /\
  List.last (split slash (topic_of prefix R)) [] = R.
Proof.
  intros HR. destruct (split_topic prefix R HR) as (first & others & ->).
  rewrite last_snoc_cons. simpl. rewrite length_app. simpl.
  repeat split.
  - apply Nat.ltb_ge. lia.
  - destruct (length others + 1)%nat eqn:E; [lia|reflexivity].
Qed.

(** A list without duplicates holds a given element at most once. *)
Lemma filter_only (P : str -> Prop) `{forall x, Decision (P x)} (u : str) (l : list str) :
  (forall x, P x <-> x = u) -> NoDup l ->
  filter P l = if decide (u ∈ l) then [u] else [].
Proof.
  intros HP Hl. induction Hl as [|x l Hx Hl IH].
  - reflexivity.
  - rewrite filter_cons. destruct (decide (P x)) as [Hpx|Hpx].
    + apply HP in Hpx. subst x. rewrite IH.
      destruct (decide (u ∈ l)); [contradiction|].
      destruct (decide (u ∈ u :: l)) as [_|Hn]; [reflexivity|].
      exfalso. apply Hn. left.
    + rewrite IH. destruct (decide (u ∈ l)) as [Hin|Hin].
      * destruct (decide (u ∈ x :: l)) as [_|Hn]; [reflexivity|].
        exfalso. apply Hn. right. assumption.
      * destruct (decide (u ∈ x :: l)) as [Hin'|_]; [|reflexivity].
        apply elem_of_cons in Hin' as [->|Hin']; [|contradiction].
        exfalso. apply Hpx, HP. reflexivity.
Qed.

Lemma filter_none (P : str -> Prop) `{forall x, Decision (P x)} (l : list str) :
  (forall x, ~ P x) -> filter P l = [].
Proof.
  intros HP. induction l as [|x l IH]; [reflexivity|].
  rewrite filter_cons. destruct (decide (P x)) as [Hpx|_]; [|assumption].
  exfalso. exact (HP x Hpx).
Qed.

Lemma is_main_observer_iff (v : ProducerView) (m u : str) :
  get_main_observer v = Some m -> is_main_observer v u = true <-> u = m.
Proof.
  intros Hm. unfold is_main_observer. rewrite Hm, bool_decide_eq_true.
  split; congruence.
Qed.

Lemma is_user_elem (v : ProducerView) (u : str) :
  is_user v u = true <-> u ∈ map fst (map_to_list (connected_users v)).
Proof.
  unfold is_user. rewrite list_elem_of_fmap. split.
  - destruct (connected_users v !! u) as [t|] eqn:E; [|discriminate].
    intros _. exists (u, t). split; [reflexivity|].
    apply elem_of_map_to_list. assumption.
  - intros [[u' t] [-> Hin]]. apply elem_of_map_to_list in Hin.
    simpl. rewrite Hin. reflexivity.
Qed.

(** Whatever the state, the roster holds at most one main observer: it is
    the value of the one variable of the radio group, if that is a key. *)
Lemma main_observers_cases (v : ProducerView) :
  main_observers v =
    match get_main_observer v with
    | Some m => if is_user v m then [m] else []
    | None => []
    end.
Proof.
  unfold main_observers. destruct (get_main_observer v) as [m|] eqn:Hm.
  - rewrite (filter_only _ m).
    + destruct (decide _) as [Hin|Hin].
      * apply is_user_elem in Hin. rewrite Hin. reflexivity.
      * destruct (is_user v m) eqn:E; [|reflexivity].
        exfalso. apply Hin, is_user_elem. assumption.
    + intros x. apply is_main_observer_iff. assumption.
    + apply NoDup_fst_map_to_list.
  - apply filter_none. intros x. unfold is_main_observer. rewrite Hm.
    rewrite bool_decide_eq_true. discriminate.
Qed.

Lemma filter_nothing {A} (P : A -> Prop) `{forall x, Decision (P x)} (l : list A) :
  (forall x, x ∈ l -> ~ P x) -> filter P l = [].
Proof.
  induction l as [|x l IH]; intros HP; [reflexivity|].
  rewrite filter_cons. destruct (decide (P x)) as [Hpx|_].
  - exfalso. apply (HP x); [left|assumption].
  - apply IH. intros y Hy. apply HP. right. assumption.
Qed.

(** In a list with distinct keys, a key selects its one pair. *)
Lemma filter_key (l : list (str * entry)) (u : str) (t : entry) :
  NoDup (map fst l) -> (u, t) ∈ l -> filter (fun e => fst e = u) l = [(u, t)].
Proof.
  induction l as [|[k x] l IH]; intros Hnd Hin.
  - apply elem_of_nil in Hin. contradiction.
  - simpl in Hnd. apply NoDup_cons in Hnd as [Hk Hnd].
    rewrite filter_cons. simpl. destruct (decide (k = u)) as [->|Hne].
    + apply elem_of_cons in Hin as [Heq|Hin].
      * inversion Heq; subst. f_equal. apply filter_nothing.
        intros [k y] Hy Hky. simpl in Hky. subst k. apply Hk.
        apply list_elem_of_fmap. exists (u, y). split; [reflexivity|assumption].
      * exfalso. apply Hk. apply list_elem_of_fmap. exists (u, t).
        split; [reflexivity|assumption].
    + apply elem_of_cons in Hin as [Heq|Hin]; [congruence|].
      apply IH; assumption.
Qed.

Lemma entries_of_user (v : ProducerView) (u : str) (t : entry) :
  connected_users v !! u = Some t -> entries_of v u = [(u, t)].
Proof.
  intros Hu. unfold entries_of. apply filter_key.
  - apply NoDup_fst_map_to_list.
  - apply elem_of_map_to_list. assumption.
Qed.

Section Producer.
Context `{Python}.

Lemma add_user_runs (username : str) (a : ChronosPYApp) :
  add_user username a =
    (Returns tt,
     if (is_user (producer_view a) username || negb (users_frame (producer_view a))
         || negb (bool_decide (is_Some (main_observer_var (producer_view a)))))%bool
     then a
     else with_producer
            {| room_id := room_id (producer_view a);
               connected_users :=
                 <[username := Alive (py "1000")]> (connected_users (producer_view a));
               users_frame := users_frame (producer_view a);
               main_observer_var := main_observer_var (producer_view a) |} a).
Proof.
  unfold add_user, update_producer. unfold_m.
  destruct (_ || _ || _)%bool; reflexivity.
Qed.

Lemma remove_user_runs (username : str) (a : ChronosPYApp) :
  remove_user username a =
    (Returns tt,
     if negb (is_user (producer_view a) username) then a
     else with_producer
            {| room_id := room_id (producer_view a);
               connected_users := delete username (connected_users (producer_view a));
               users_frame := users_frame (producer_view a);
               main_observer_var :=
                 match main_observer_var (producer_view a) with
                 | Some main => if bool_decide (main = username) then Some [] else Some main
                 | None => None
                 end |} a).
Proof.
  unfold remove_user, update_producer. unfold_m.
  destruct (negb _); reflexivity.
Qed.

(** An inbound JOIN on [room/u] in the producer view is [add_user u]. *)
Lemma join_is_add_user
    (a : ChronosPYApp) (w : World) (room u : str) (items : list (str * json)) :
  current_view a = PRODUCER ->
  assoc (py "action") items = Some (JStr (py "JOIN")) ->
  slash ∉ u ->
  _on_message w (topic_of room u) (Some (JObj items)) a = add_user u a.
Proof.
  intros Hview Haction Hu.
  destruct (topic_parts room u Hu) as (_ & Hlen & Hlast).
  unfold _on_message, _on_mqtt_message_received, add_message, json_loads, dict_get.
  unfold_m. cbv zeta. rewrite Hview, Haction, Hlen, Hlast. simpl.
  rewrite add_user_runs. reflexivity.
Qed.

(** An inbound LEAVE on [room/u] in the producer view is [remove_user u]. *)
Lemma leave_is_remove_user
    (a : ChronosPYApp) (w : World) (room u : str) (items : list (str * json)) :
  current_view a = PRODUCER ->
  assoc (py "action") items = Some (JStr (py "LEAVE")) ->
  slash ∉ u ->
  _on_message w (topic_of room u) (Some (JObj items)) a = remove_user u a.
Proof.
  intros Hview Haction Hu.
  destruct (topic_parts room u Hu) as (_ & Hlen & Hlast).
  unfold _on_message, _on_mqtt_message_received, add_message, json_loads, dict_get.
  unfold_m. cbv zeta. rewrite Hview, Haction, Hlen, Hlast. simpl.
  rewrite remove_user_runs. reflexivity.
Qed.

(** C7. With the producer view on screen, two JOINs of a username leave
    exactly one roster entry for it; the second JOIN changes nothing, and a
    JOIN of a username already in the roster changes nothing, so that the
    existing entry keeps its delay. *)
Theorem join_twice_leaves_one_entry
    (a : ChronosPYApp) (w : World) (room u : str) (items : list (str * json)) :
  producing a ->
  assoc (py "action") items = Some (JStr (py "JOIN")) ->
  slash ∉ u ->
  let join := _on_message w (topic_of room u) (Some (JObj items)) in
  let a1 := run join a in
  let a2 := run join a1 in
  (exists t, entries_of (producer_view a2) u = [(u, t)]) /\
  a2 = a1 /\
  (is_user (producer_view a) u = true -> a1 = a).
Proof.
  intros (Hview & Hframe & Hvar) Haction Hu join a1 a2.
  assert (Ha1 : a1 = run (add_user u) a).
  { unfold a1, join, run. rewrite join_is_add_user by assumption. reflexivity. }
  assert (Hview1 : current_view a1 = PRODUCER).
  { rewrite Ha1. unfold run. rewrite add_user_runs. simpl.
    destruct (_ || _ || _)%bool; assumption. }
  assert (Ha2 : a2 = run (add_user u) a1).
  { unfold a2, join, run. rewrite join_is_add_user by assumption. reflexivity. }
  assert (Hin1 : exists t, connected_users (producer_view a1) !! u = Some t).
  { rewrite Ha1. unfold run. rewrite add_user_runs. simpl.
    rewrite Hframe, (bool_decide_eq_true_2 _ Hvar). simpl. rewrite orb_false_r.
    unfold is_user. destruct (connected_users (producer_view a) !! u) as [t|] eqn:E.
    - exists t. assumption.
    - exists (Alive (py "1000")). simpl. apply lookup_insert_eq. }
  assert (Hsame : a2 = a1).
  { rewrite Ha2. unfold run. rewrite add_user_runs. simpl.
    destruct Hin1 as [t Ht]. unfold is_user. rewrite Ht. reflexivity. }
  repeat split.
  - rewrite Hsame. destruct Hin1 as [t Ht]. exists t.
    apply entries_of_user. assumption.
  - assumption.
  - intros Hin. rewrite Ha1. unfold run. rewrite add_user_runs. simpl.
    rewrite Hin. reflexivity.
Qed.

(** [get_user_time] raises nothing but the [TclError] of a destroyed entry. *)
Lemma get_user_time_cases (v : ProducerView) (u : str) :
  match connected_users v !! u with
  | None => get_user_time v u = Returns None
  | Some (Alive text) => get_user_time v u = Returns (Some (default 1000 (int_of_str text)))
  | Some Destroyed => get_user_time v u = Raises TclError
  end.
Proof.
  unfold get_user_time. destruct (connected_users v !! u) as [[text|]|]; reflexivity.
Qed.

(** The relay of a sync request, where the two time entries can be read. In
    the producer view, an inbound SYNC_REQ on room/R is relayed as exactly one
    TIME_REQ to
    room/M when a main observer M is selected (the transport being
    connected): it carries requester R, R's roster delay, or 1000 when R is
    not in the roster, and M's roster delay. Without a main observer nothing
    happens at all. *)
Lemma sync_req_is_relayed_when_entries_are_read
    (a : ChronosPYApp) (w : World) (room R : str) (items : list (str * json)) :
  current_view a = PRODUCER ->
  assoc (py "action") items = Some (JStr (py "SYNC_REQ")) ->
  slash ∉ R ->
  let v := producer_view a in
  let a' := run (_on_message w (topic_of room R) (Some (JObj items))) a in
  (forall M dM dR,
     online a = true ->
     room_id v = Some room -> truthy room = true ->
     get_main_observer v = Some M ->
     get_user_time v M = Returns (Some dM) ->
     get_user_time v R = Returns dR ->
     trace a' = trace a ++
       [Publish (topic_of room M)
          (JObj [(py "action", JStr (py "TIME_REQ"));
                 (py "requester", JStr R);
                 (py "requester_delay", JInt (default 1000 dR));
                 (py "main_observer_delay", JInt dM)])]) /\
  (get_main_observer v = None -> a' = a).
Proof.
  intros Hview Haction HR v a'. subst v a'.
  destruct (topic_parts room R HR) as (Hlen & _ & Hlast).
  split.
  - intros M dM dR Honline Hroom Hr HM HdM HdR.
    unfold online in Honline. apply andb_true_iff in Honline as [Hc Hi].
    unfold _on_message, _on_mqtt_message_received, add_message,
      _handle_sync_request, on_send_time_request, publish, json_loads, dict_get.
    unfold_m. cbv zeta. rewrite Hview, Haction, Hlen, Hlast. simpl.
    rewrite HM, Hroom, Hr, HdR, HdM. simpl. rewrite Hc, Hi. reflexivity.
  - intros HM.
    unfold _on_message, _on_mqtt_message_received, add_message,
      _handle_sync_request, json_loads, dict_get.
    unfold_m. cbv zeta. rewrite Hview, Haction, Hlen. simpl.
    rewrite HM. reflexivity.
Qed.

(** C1, where the code departs from it. [BaseView.hide] destroys the time
    entries of the roster and [connected_users] keeps its keys, so a roster
    can hold a username whose time entry is destroyed. With a main observer
    M selected and a room id set, an inbound SYNC_REQ on room/R is then not
    relayed when the entry of R, or that of M, is destroyed: reading it
    raises TclError, which [get_user_time] does not catch; the error leaves
    [add_message], nothing is published and no TIME_REQ is sent, and
    [_on_message] swallows the error. *)
Theorem sync_req_is_lost_with_destroyed_entry
    (a : ChronosPYApp) (w : World) (room R M : str) (items : list (str * json)) :
  current_view a = PRODUCER ->
  assoc (py "action") items = Some (JStr (py "SYNC_REQ")) ->
  slash ∉ R ->
  room_id (producer_view a) = Some room -> truthy room = true ->
  get_main_observer (producer_view a) = Some M ->
  connected_users (producer_view a) !! R = Some Destroyed \/
  connected_users (producer_view a) !! M = Some Destroyed ->
  add_message (topic_of room R) (Some (JObj items)) a = (Raises TclError, a) /\
  _on_message w (topic_of room R) (Some (JObj items)) a = (Returns tt, a).
Proof.
  intros Hview Haction HR Hroom Hr HM Hdestroyed.
  destruct (topic_parts room R HR) as (Hlen & _ & Hlast).
  assert (Hraise : add_message (topic_of room R) (Some (JObj items)) a = (Raises TclError, a)).
  { unfold add_message, _handle_sync_request, json_loads, dict_get.
    unfold_m. cbv zeta. rewrite Haction, Hlen, Hlast. simpl.
    rewrite HM, Hroom, Hr. simpl.
    pose proof (get_user_time_cases (producer_view a) R) as HtR.
    pose proof (get_user_time_cases (producer_view a) M) as HtM.
    destruct Hdestroyed as [Hd|Hd].
    - rewrite Hd in HtR. rewrite HtR. reflexivity.
    - rewrite Hd in HtM.
      destruct (connected_users (producer_view a) !! R) as [[text|]|];
        rewrite HtR; simpl; rewrite ?HtM; reflexivity. }
  split; [exact Hraise|].
  unfold _on_message, _on_mqtt_message_received. unfold_m.
  rewrite Hview, Hraise. reflexivity.
Qed.

(** C4, as the code has it. For a non-empty username u of the roster, with
    the producer view active and a room id, [on_remove_user u] publishes
    LEAVE to room/u and then deletes the entry of u when the transport takes
    the publish; when the publish raises, the entry is kept and the error is
    shown to the operator. *)
Theorem on_remove_user_deletes_after_publish
    (a : ChronosPYApp) (room u : str) :
  current_view a = PRODUCER ->
  room_id (producer_view a) = Some room -> truthy room = true ->
  truthy u = true ->
  is_user (producer_view a) u = true ->
  let a' := run (on_remove_user u) a in
  if online a then
    trace a' = trace a ++ [Publish (topic_of room u) (JObj [(py "action", JStr (py "LEAVE"))])] /\
    connected_users (producer_view a') = delete u (connected_users (producer_view a)) /\
    is_user (producer_view a') u = false
  else
    trace a' = trace a ++ [ShowError "Error removing user" (Some RuntimeError)] /\
    producer_view a' = producer_view a.
Proof.
  intros Hview Hroom Hr Hu Hin.
  unfold on_remove_user, publish, online. unfold_m.
  rewrite Hview, Hroom, Hr, Hu. simpl.
  destruct (_client (mqtt_manager a)); simpl; [|split; reflexivity].
  destruct (_is_connected (mqtt_manager a)); simpl; [|split; reflexivity].
  rewrite remove_user_runs. simpl. rewrite Hin. simpl.
  repeat split. unfold is_user. simpl. rewrite lookup_delete_eq. reflexivity.
Qed.

End Producer.

(** ** Invariants of statements *)

Section Preserves.
Context (P : ChronosPYApp -> Prop).

Lemma preserves_ret {A} (x : A) : preserves P (mret x).
Proof. intros s Hs. exact Hs. Qed.

Lemma preserves_pass : preserves P pass.
Proof. intros s Hs. exact Hs. Qed.

Lemma preserves_raise {A} (e : exn) : preserves P (raise e : M A).
Proof. intros s Hs. exact Hs. Qed.

Lemma preserves_read {A} (f : ChronosPYApp -> A) : preserves P (read f).
Proof. intros s Hs. exact Hs. Qed.

Lemma preserves_lift {A} (r : outcome A) : preserves P (lift r).
Proof. intros s Hs. destruct r; exact Hs. Qed.

Lemma preserves_update (f : ChronosPYApp -> ChronosPYApp) :
  (forall s, P s -> P (f s)) -> preserves P (update f).
Proof. intros Hf s Hs. apply Hf, Hs. Qed.

Lemma preserves_bind {A B} (m : M A) (f : A -> M B) :
  preserves P m -> (forall x, preserves P (f x)) -> preserves P (m ≫= f).
Proof.
  intros Hm Hf s Hs. specialize (Hm s Hs). unfold_m.
  destruct (m s) as [[x|e] s']; simpl in *; [|exact Hm].
  apply (Hf x s' Hm).
Qed.

Lemma preserves_try_except {A} (body : M A) (catches : exn -> bool) (h : exn -> M A) :
  preserves P body -> (forall e, preserves P (h e)) ->
  preserves P (try_except body catches h).
Proof.
  intros Hb Hh s Hs. specialize (Hb s Hs). unfold_m.
  destruct (body s) as [[x|e] s']; simpl in *; [exact Hb|].
  destruct (catches e); simpl; [|exact Hb].
  apply (Hh e s' Hb).
Qed.

End Preserves.

Create HintDb preserves.

Ltac preserves_step :=
  first [ solve [auto with preserves]
        | apply preserves_bind; [|intros ?]
        | apply preserves_try_except; [|intros ?]
        | apply preserves_ret | apply preserves_pass | apply preserves_raise
        | apply preserves_read | apply preserves_lift
        | assumption
        | progress cbv zeta
        | case_match ].

Lemma preserves_perform (Q : ProducerView -> Prop) (e : effect) :
  preserves (of_roster Q) (perform e).
Proof. intros s Hs. exact Hs. Qed.

Lemma preserves_update_observer (Q : ProducerView -> Prop) (f : ObserverView -> ObserverView) :
  preserves (of_roster Q) (update_observer f).
Proof. intros s Hs. exact Hs. Qed.

(** ** The roster under any sequence of events *)

#[local] Hint Resolve preserves_perform preserves_update_observer : preserves.

Ltac preserves_tac :=
  repeat preserves_step; eauto with preserves.

Section Roster.
Context `{Python}.

Lemma preserves_subscribe (Q : ProducerView -> Prop) (topic : str) :
  preserves (of_roster Q) (subscribe topic).
Proof. unfold subscribe. preserves_tac. Qed.

Lemma preserves_publish (Q : ProducerView -> Prop) (topic : str) (payload : json) :
  preserves (of_roster Q) (publish topic payload).
Proof. unfold publish. preserves_tac. Qed.

Lemma preserves_set_is_connected (Q : ProducerView -> Prop) (b : bool) :
  preserves (of_roster Q) (set_is_connected b).
Proof. intros s Hs. exact Hs. Qed.

Lemma preserves_connect (Q : ProducerView -> Prop) (broker : outcome unit) :
  preserves (of_roster Q) (connect broker).
Proof.
  unfold connect. preserves_tac; try apply preserves_set_is_connected.
  all: intros s Hs; exact Hs.
Qed.

#[local] Hint Resolve preserves_subscribe preserves_publish preserves_set_is_connected
  preserves_connect : preserves.

Lemma preserves_add_user (username : str) :
  preserves (of_roster roster_inv) (add_user username).
Proof.
  intros s [Hmain Hvar]. unfold of_roster, run. rewrite add_user_runs. simpl.
  destruct (_ || _ || _)%bool eqn:Hguard; [split; assumption|].
  apply orb_false_iff in Hguard as [_ Hsome]. apply negb_false_iff in Hsome.
  apply bool_decide_eq_true in Hsome.
  split.
  - intros m Hm. unfold get_main_observer in Hm. simpl in Hm.
    specialize (Hmain m Hm). unfold is_user in *. simpl.
    destruct (decide (username = m)) as [->|Hne].
    + rewrite lookup_insert_eq. reflexivity.
    + rewrite lookup_insert_ne by assumption. assumption.
  - intros u _. exact Hsome.
Qed.

Lemma preserves_remove_user (username : str) :
  preserves (of_roster roster_inv) (remove_user username).
Proof.
  intros s [Hmain Hvar]. unfold of_roster, run. rewrite remove_user_runs. simpl.
  destruct (negb _) eqn:Hguard; [split; assumption|].
  apply negb_false_iff in Hguard. specialize (Hvar _ Hguard) as [main Hsome].
  split.
  - intros m Hm. unfold get_main_observer in Hm. simpl in Hm. rewrite Hsome in Hm.
    destruct (bool_decide (main = username)) eqn:Heq; [discriminate|].
    apply bool_decide_eq_false in Heq.
    assert (Hm' : get_main_observer (producer_view s) = Some m).
    { unfold get_main_observer. rewrite Hsome. exact Hm. }
    specialize (Hmain m Hm'). unfold is_user in *. simpl.
    assert (m = main) as ->.
    { destruct (truthy main); congruence. }
    rewrite lookup_delete_ne by congruence. assumption.
  - intros u _. simpl. rewrite Hsome. destruct (bool_decide _); eexists; reflexivity.
Qed.

Lemma preserves_select_main_observer (username : str) :
  preserves (of_roster roster_inv) (select_main_observer username).
Proof.
  intros s [Hmain Hvar]. unfold of_roster, run, select_main_observer, update_producer.
  unfold_m. destruct (is_user (producer_view s) username) eqn:Hin; simpl;
    [|split; assumption].
  destruct (bool_decide _); simpl; [|split; assumption].
  split.
  - intros m Hm. unfold get_main_observer in Hm. simpl in Hm.
    destruct (truthy username); [|discriminate].
    injection Hm as <-. exact Hin.
  - intros u _. eexists; reflexivity.
Qed.

Lemma preserves_edit_time_entry (username text : str) :
  preserves (of_roster roster_inv) (edit_time_entry username text).
Proof.
  intros s [Hmain Hvar]. unfold of_roster, run, edit_time_entry, update_producer.
  unfold_m.
  destruct (connected_users (producer_view s) !! username) as [[old|]|] eqn:Hin; simpl;
    try (split; assumption).
  assert (Huser : is_user (producer_view s) username = true).
  { unfold is_user. rewrite Hin. reflexivity. }
  split.
  - intros m Hm. specialize (Hmain m Hm). unfold is_user in *. simpl.
    destruct (decide (username = m)) as [->|Hne].
    + rewrite lookup_insert_eq. reflexivity.
    + rewrite lookup_insert_ne by assumption. assumption.
  - intros u _. exact (Hvar _ Huser).
Qed.

(** Destroying the widgets of the roster keeps its keys. *)
Lemma is_user_destroy_roster (v : ProducerView) (u : str) :
  is_user (destroy_roster v) u = is_user v u.
Proof.
  unfold is_user, destroy_roster. simpl. rewrite lookup_fmap.
  destruct (connected_users v !! u); reflexivity.
Qed.

Lemma preserves_destroy_roster :
  preserves (of_roster roster_inv) (update_producer destroy_roster).
Proof.
  intros s [Hmain Hvar]. split.
  - intros m Hm. simpl. rewrite is_user_destroy_roster. apply Hmain. exact Hm.
  - intros u Hu. simpl in Hu. rewrite is_user_destroy_roster in Hu.
    exact (Hvar u Hu).
Qed.

Lemma preserves_with_hotkey (Q : ProducerView -> Prop) (h : bool) :
  preserves (of_roster Q) (update (with_hotkey h)).
Proof. intros s Hs. exact Hs. Qed.

#[local] Hint Resolve preserves_add_user preserves_remove_user
  preserves_select_main_observer preserves_edit_time_entry
  preserves_destroy_roster preserves_with_hotkey : preserves.

Lemma preserves_add_message (topic : str) (payload : option json) :
  preserves (of_roster roster_inv) (add_message topic payload).
Proof.
  unfold add_message, _handle_sync_request, on_send_time_request, json_loads.
  preserves_tac.
Qed.

Lemma preserves_add_received_message (w : World) (topic : str) (payload : option json) :
  preserves (of_roster roster_inv) (add_received_message w topic payload).
Proof.
  unfold add_received_message, _handle_time_request, on_send_time_response,
    get_current_time, set_time, json_loads.
  preserves_tac.
Qed.

#[local] Hint Resolve preserves_add_message preserves_add_received_message : preserves.

Lemma preserves_with_view (Q : ProducerView -> Prop) (view : AppView) :
  preserves (of_roster Q) (update (with_view view)).
Proof. intros s Hs. exact Hs. Qed.

Lemma preserves_ProducerView_show (generated : str) :
  preserves (of_roster roster_inv) (ProducerView_show generated).
Proof.
  intros s [Hmain Hvar]. split.
  - intros m Hm. discriminate.
  - intros u _. eexists; reflexivity.
Qed.

Lemma preserves_hide (view : AppView) :
  preserves (of_roster roster_inv) (hide view).
Proof.
  destruct view; unfold hide, ProducerView_hide, ObserverView_hide; preserves_tac.
Qed.

#[local] Hint Resolve preserves_with_view preserves_ProducerView_show preserves_hide
  : preserves.

Lemma preserves_handler (ev : event) :
  preserves (of_roster roster_inv) (handler ev).
Proof.
  destruct ev; unfold handler, _on_message, _on_mqtt_message_received,
    _on_assign_clicked, on_assign_user, on_remove_user, on_mode_selected,
    _show_view, _setup_producer_mode, ObserverView_show, on_back_requested,
    edit_join_entries, _on_join_clicked, on_room_joined, on_sync_requested,
    publish_sync_message, on_connect_requested, _on_connect, _on_disconnect,
    on_disconnect_requested, disconnect; preserves_tac.
Qed.

Lemma after_roster_inv (evs : list event) (a : ChronosPYApp) :
  roster_inv (producer_view a) -> roster_inv (producer_view (after evs a)).
Proof.
  revert a. induction evs as [|ev evs IH]; intros a Ha; [exact Ha|].
  simpl. apply IH. apply (preserves_handler ev a Ha).
Qed.

(** *** The producer view and its widgets *)

Lemma widgets_perform (e : effect) : preserves widgets_exist (perform e).
Proof. intros s Hs. exact Hs. Qed.

Lemma widgets_update_observer (f : ObserverView -> ObserverView) :
  preserves widgets_exist (update_observer f).
Proof. intros s Hs. exact Hs. Qed.

Lemma widgets_set_is_connected (b : bool) : preserves widgets_exist (set_is_connected b).
Proof. intros s Hs. exact Hs. Qed.

Lemma widgets_connect (broker : outcome unit) : preserves widgets_exist (connect broker).
Proof.
  intros s Hs. unfold connect, set_is_connected. unfold_m.
  destruct broker as [[]|e]; exact Hs.
Qed.

Lemma widgets_show_view (generated : str) (view : AppView) :
  preserves widgets_exist (_show_view generated view).
Proof.
  intros s Hs.
  unfold run, _show_view, hide, ProducerView_hide, ObserverView_hide, update_producer,
    update_observer, ProducerView_show, ObserverView_show.
  unfold_m.
  destruct (current_view s) eqn:Hcurrent; simpl; try destruct (hotkey s); simpl;
    destruct view; unfold widgets_exist; simpl;
    first [ exact Hs
          | intros Hview; discriminate Hview
          | intros _; split; [reflexivity|eexists; reflexivity] ].
Qed.

Lemma widgets_add_user (username : str) : preserves widgets_exist (add_user username).
Proof.
  intros s Hs. unfold run. rewrite add_user_runs. simpl.
  destruct (_ || _ || _)%bool; exact Hs.
Qed.

Lemma widgets_remove_user (username : str) : preserves widgets_exist (remove_user username).
Proof.
  intros s Hs. unfold run. rewrite remove_user_runs. simpl.
  destruct (negb _); [exact Hs|].
  intros Hview. destruct (Hs Hview) as [Hframe [main Hvar]].
  split; [exact Hframe|]. simpl. rewrite Hvar.
  destruct (bool_decide _); eexists; reflexivity.
Qed.

Lemma widgets_select_main_observer (username : str) :
  preserves widgets_exist (select_main_observer username).
Proof.
  intros s Hs. unfold run, select_main_observer, update_producer. unfold_m.
  destruct (_ && _)%bool; [|exact Hs].
  intros Hview. destruct (Hs Hview) as [Hframe _].
  split; [exact Hframe|]. eexists; reflexivity.
Qed.

Lemma widgets_edit_time_entry (username text : str) :
  preserves widgets_exist (edit_time_entry username text).
Proof.
  intros s Hs. unfold run, edit_time_entry, update_producer. unfold_m.
  destruct (connected_users (producer_view s) !! username) as [[old|]|]; exact Hs.
Qed.

#[local] Hint Resolve widgets_perform widgets_update_observer widgets_set_is_connected
  widgets_connect widgets_show_view widgets_add_user widgets_remove_user
  widgets_select_main_observer widgets_edit_time_entry : preserves.

Lemma widgets_handler (ev : event) : preserves widgets_exist (handler ev).
Proof.
  destruct ev; unfold handler, _on_message, _on_mqtt_message_received,
    add_message, _handle_sync_request, on_send_time_request,
    add_received_message, _handle_time_request, on_send_time_response,
    get_current_time, set_time, json_loads,
    _on_assign_clicked, on_assign_user, on_remove_user, on_mode_selected,
    _setup_producer_mode, on_back_requested,
    edit_join_entries, _on_join_clicked, on_room_joined, on_sync_requested,
    publish_sync_message, on_connect_requested, _on_connect, _on_disconnect,
    on_disconnect_requested, disconnect, publish, subscribe; preserves_tac.
Qed.

(** Whenever a started application shows the producer view, the widgets of
    the roster exist: an inbound JOIN is never lost for want of them. *)
Lemma producer_view_has_widgets (evs : list event) :
  current_view (after evs initial_app) = PRODUCER -> producing (after evs initial_app).
Proof.
  intros Hview. split; [exact Hview|]. revert Hview.
  change (widgets_exist (after evs initial_app)).
  assert (Hinit : widgets_exist initial_app) by (intros Hview; discriminate).
  revert Hinit. generalize initial_app.
  induction evs as [|ev evs IH]; intros a Ha; [exact Ha|].
  simpl. apply IH. apply (widgets_handler ev a Ha).
Qed.

(** C3. From an empty roster with nobody selected, after any sequence of
    inbound messages and operator actions at most one roster entry is the
    main observer, and it is an entry of the roster; selecting the entry of
    u leaves no other entry as main observer, and makes u the one main
    observer when its name is not empty. *)
Theorem at_most_one_main_observer (evs : list event) (a0 : ChronosPYApp) :
  connected_users (producer_view a0) = ∅ ->
  get_main_observer (producer_view a0) = None ->
  let a := after evs a0 in
  let v := producer_view a in
  (length (main_observers v) <= 1)%nat /\
  (forall m, get_main_observer v = Some m -> is_user v m = true) /\
  (forall u, is_user v u = true ->
     let v' := producer_view (run (select_main_observer u) a) in
     (forall p, p <> u -> is_main_observer v' p = false) /\
     (truthy u = true -> main_observers v' = [u])).
Proof.
  intros Hempty Hnone a v.
  assert (Hinv : roster_inv v).
  { apply after_roster_inv. split.
    - intros m Hm. congruence.
    - intros u Hu. unfold is_user in Hu. rewrite Hempty, lookup_empty in Hu.
      discriminate. }
  destruct Hinv as [Hmain Hvar].
  split; [|split].
  - rewrite main_observers_cases.
    destruct (get_main_observer v); [destruct (is_user v _)|]; simpl; lia.
  - exact Hmain.
  - intros u Hu v'.
    assert (Hv' : v' = {| room_id := room_id v; connected_users := connected_users v;
                          users_frame := users_frame v; main_observer_var := Some u |}).
    { unfold v', select_main_observer, update_producer. unfold_m. fold v.
      rewrite Hu, (bool_decide_eq_true_2 _ (Hvar u Hu)). reflexivity. }
    split.
    + intros p Hp. unfold is_main_observer. apply bool_decide_eq_false.
      rewrite Hv'. unfold get_main_observer. simpl.
      destruct (truthy u); congruence.
    + intros Ht. rewrite main_observers_cases, Hv'. unfold get_main_observer. simpl.
      rewrite Ht. unfold is_user in *. simpl. fold v. 
      destruct (connected_users v !! u); [reflexivity|discriminate].
Qed.

End Roster.

(** ** Validation of the room id ([utils/helpers.py], [_on_join_clicked]) *)

(** A fact checked on each of the 128 ASCII characters holds of all. *)
Lemma ascii_forall (P : N -> bool) :
  forallb P (map N.of_nat (seq 0 128)) = true ->
  forall c, (c < 0x80)%N -> P c = true.
Proof.
  rewrite forallb_forall. intros Hall c Hc. apply Hall.
  apply in_map_iff. exists (N.to_nat c). split; [apply N2Nat.id|].
  apply in_seq. lia.
Qed.

Section Validation.
Context `{Python}.

Lemma upper_char_ascii (c : N) : (c < 0x80)%N -> upper_char c = [ascii_up c].
Proof.
  intros Hc. apply (bool_decide_eq_true_1 _). revert c Hc.
  apply (ascii_forall (fun c => bool_decide (upper_char c = [ascii_up c]))).
  vm_compute. reflexivity.
Qed.

Lemma isspace_ascii_up (c : N) : (c < 0x80)%N -> isspace (ascii_up c) = isspace c.
Proof.
  intros Hc. apply Bool.eqb_prop. revert c Hc.
  apply (ascii_forall (fun c => Bool.eqb (isspace (ascii_up c)) (isspace c))).
  vm_compute. reflexivity.
Qed.

Lemma ascii_up_ascii (c : N) : (c < 0x80)%N -> (ascii_up c < 0x80)%N.
Proof.
  intros Hc. apply N.ltb_lt. revert c Hc.
  apply (ascii_forall (fun c => N.ltb (ascii_up c) 0x80)).
  vm_compute. reflexivity.
Qed.

Lemma ascii_up_idempotent (c : N) : (c < 0x80)%N -> ascii_up (ascii_up c) = ascii_up c.
Proof.
  intros Hc. apply N.eqb_eq. revert c Hc.
  apply (ascii_forall (fun c => N.eqb (ascii_up (ascii_up c)) (ascii_up c))).
  vm_compute. reflexivity.
Qed.

Lemma isalnum_ascii_up (c : N) :
  (c < 0x80)%N ->
  isalnum_char (ascii_up c) = (ascii_isupper (ascii_up c) || ascii_isdigit (ascii_up c))%bool.
Proof.
  intros Hc. apply Bool.eqb_prop. revert c Hc.
  apply (ascii_forall (fun c => Bool.eqb (isalnum_char (ascii_up c))
                                  (ascii_isupper (ascii_up c) || ascii_isdigit (ascii_up c)))).
  vm_compute. reflexivity.
Qed.

Lemma upper_ascii (s : str) : is_ascii s -> upper s = map ascii_up s.
Proof.
  unfold upper. induction 1 as [|c s Hc Hs IH]; [reflexivity|].
  simpl. rewrite upper_char_ascii by assumption. simpl. f_equal. exact IH.
Qed.

Lemma is_ascii_map_up (s : str) : is_ascii s -> is_ascii (map ascii_up s).
Proof.
  unfold is_ascii. induction 1 as [|c s Hc Hs IH]; simpl; constructor;
    [apply ascii_up_ascii|]; assumption.
Qed.

Lemma map_up_idempotent (s : str) :
  is_ascii s -> map ascii_up (map ascii_up s) = map ascii_up s.
Proof.
  induction 1 as [|c s Hc Hs IH]; simpl; [reflexivity|].
  rewrite ascii_up_idempotent by assumption. f_equal. exact IH.
Qed.

Lemma lstrip_idempotent (s : str) : lstrip (lstrip s) = lstrip s.
Proof.
  induction s as [|c s IH]; simpl; [reflexivity|].
  destruct (isspace c) eqn:E; [exact IH|]. simpl. rewrite E. reflexivity.
Qed.

Lemma lstrip_head (s x : str) (c : N) : lstrip s = c :: x -> isspace c = false.
Proof.
  induction s as [|d s IH]; simpl; [discriminate|].
  destruct (isspace d) eqn:E; [exact IH|]. intros [= <- _]. exact E.
Qed.

Lemma lstrip_snoc (s : str) (c : N) :
  isspace c = false -> exists z, lstrip (s ++ [c]) = z ++ [c].
Proof.
  intros Hc. induction s as [|d s [z IH]]; simpl.
  - rewrite Hc. exists []. reflexivity.
  - destruct (isspace d); [exists z; exact IH|].
    exists (d :: s). reflexivity.
Qed.

Lemma is_ascii_lstrip (s : str) : is_ascii s -> is_ascii (lstrip s).
Proof.
  unfold is_ascii. induction 1 as [|c s Hc Hs IH]; simpl; [constructor|].
  destruct (isspace c); [exact IH|]. constructor; assumption.
Qed.

Lemma is_ascii_rev (s : str) : is_ascii s -> is_ascii (rev s).
Proof.
  unfold is_ascii. rewrite !List.Forall_forall. intros Hs c Hc.
  apply Hs, in_rev. exact Hc.
Qed.

Lemma is_ascii_strip (s : str) : is_ascii s -> is_ascii (strip s).
Proof.
  intros Hs. unfold strip, rstrip.
  apply is_ascii_rev, is_ascii_lstrip, is_ascii_rev, is_ascii_lstrip, Hs.
Qed.

(** A stripped string starts and ends with a character that is no space. *)
Lemma strip_trimmed (s : str) :
  lstrip (strip s) = strip s /\ lstrip (rev (strip s)) = rev (strip s).
Proof.
  unfold strip, rstrip. split.
  - destruct (lstrip s) as [|c x] eqn:E; [reflexivity|].
    apply lstrip_head in E. simpl.
    destruct (lstrip_snoc (rev x) c E) as [z ->].
    rewrite rev_app_distr. simpl. rewrite E. reflexivity.
  - rewrite rev_involutive. apply lstrip_idempotent.
Qed.

Lemma strip_of_trimmed (s : str) :
  lstrip s = s -> lstrip (rev s) = rev s -> strip s = s.
Proof.
  intros Hl Hr. unfold strip, rstrip. rewrite Hl, Hr. apply rev_involutive.
Qed.

Lemma lstrip_map_up (s : str) :
  is_ascii s -> lstrip (map ascii_up s) = map ascii_up (lstrip s).
Proof.
  induction 1 as [|c s Hc Hs IH]; simpl; [reflexivity|].
  rewrite isspace_ascii_up by assumption.
  destruct (isspace c); [exact IH|reflexivity].
Qed.

(** Normalising twice is normalising once, on ASCII text. *)
Lemma normalise_idempotent (text : str) :
  is_ascii text -> upper (strip (upper (strip text))) = upper (strip text).
Proof.
  intros Htext.
  assert (Ht : is_ascii (strip text)) by (apply is_ascii_strip; assumption).
  destruct (strip_trimmed text) as [Hl Hr].
  rewrite (upper_ascii (strip text)) by assumption.
  rewrite strip_of_trimmed.
  - rewrite upper_ascii by (apply is_ascii_map_up; assumption).
    apply map_up_idempotent. assumption.
  - rewrite lstrip_map_up, Hl by assumption. reflexivity.
  - rewrite <- map_rev, lstrip_map_up, Hr by (apply is_ascii_rev; assumption).
    reflexivity.
Qed.

Lemma isalnum_map_up (s : str) :
  is_ascii s ->
  forallb isalnum_char (map ascii_up s) =
  forallb (fun c => ascii_isupper c || ascii_isdigit c)%bool (map ascii_up s).
Proof.
  induction 1 as [|c s Hc Hs IH]; simpl; [reflexivity|].
  rewrite isalnum_ascii_up by assumption. f_equal. exact IH.
Qed.

(** C9, as the code has it. On ASCII input the join validation accepts a
    room id exactly when, trimmed and upper-cased, it matches
    [^[A-Z0-9]{5}$]: abcde is accepted as ABCDE, abcd and abcdef are
    rejected. A rejected room id only shows an error: no subscription, no
    publish, no change of the session. An accepted one, with a valid
    username, becomes the room of the session in its normalised form and
    the join is sent. *)
Theorem room_id_validation (text : str) :
  let room := upper (strip text) in
  (is_ascii text -> validate_room_id room = room_id_pattern room) /\
  (validate_room_id room = false ->
   forall (a : ChronosPYApp) (username_text : str),
     room_entry (observer_view a) = Some (Alive text) ->
     username_entry (observer_view a) = Some (Alive username_text) ->
     run _on_join_clicked a =
       with_effect (ShowError "Room ID must be 5 alphanumeric characters" None) a) /\
  (validate_room_id room = true ->
   forall (a : ChronosPYApp) (username_text : str),
     room_entry (observer_view a) = Some (Alive text) ->
     username_entry (observer_view a) = Some (Alive username_text) ->
     validate_username (strip username_text) = true ->
     run _on_join_clicked a =
       run (on_room_joined room (strip username_text))
         (with_observer {| room_entry := Some (Alive text);
                           username_entry := Some (Alive username_text);
                           current_room_id := Some room;
                           current_username := Some (strip username_text) |} a)) /\
  (upper (strip (py "abcde")) = py "ABCDE" /\
   validate_room_id (py "ABCDE") = true /\
   validate_room_id (upper (strip (py "abcd"))) = false /\
   validate_room_id (upper (strip (py "abcdef"))) = false).
Proof.
  intros room. split; [|split; [|split]].
  - intros Htext. unfold validate_room_id. fold room.
    replace (upper (strip room)) with room
      by (symmetry; apply normalise_idempotent; assumption).
    assert (Hroom : room = map ascii_up (strip text)).
    { apply upper_ascii, is_ascii_strip. assumption. }
    unfold room_id_pattern, isalnum.
    destruct room as [|c r] eqn:E; [reflexivity|].
    simpl negb. cbv iota. simpl truthy. rewrite andb_true_l.
    rewrite Hroom, isalnum_map_up by (apply is_ascii_strip; assumption).
    reflexivity.
  - intros Hreject a username_text Hroom Huser.
    unfold _on_join_clicked. unfold_m. rewrite Hroom, Huser. simpl. fold room.
    rewrite Hreject. reflexivity.
  - intros Haccept a username_text Hroom Huser Hname.
    unfold _on_join_clicked, update_observer. unfold_m. rewrite Hroom, Huser. simpl.
    fold room. rewrite Haccept, Hname. simpl. rewrite Hroom, Huser. reflexivity.
  - vm_compute. repeat split.
Qed.

End Validation.


(** * The model on concrete inputs *)

Lemma no_slash_in_alice : slash ∉ py "alice".
Proof. apply (bool_decide_unpack _). vm_compute. exact I. Qed.

(** A started application that connects and opens the producer mode is
    [example_room]; the roster of [example_producer] is what two JOINs, an
    edit of alice's delay and the selection of bob make of it. *)
Lemma example_room_is_opened :
  @after example_python
    [ClickConnect (Returns tt); Connected 0; ModeSelectionTimer;
     ModeSelected (py "ABCDE") (py "producer")] initial_app = example_room.
Proof. reflexivity. Qed.

Lemma example_producer_is_reached :
  producer_view
    (@after example_python
       [Deliver example_world (py "ABCDE/alice") (Some (JObj example_join));
        Deliver example_world (py "ABCDE/bob") (Some (JObj example_join));
        EditTime (py "alice") (py "500");
        ClickMainObserver (py "bob")] example_room)
  = producer_view example_producer.
Proof. vm_compute. reflexivity. Qed.

(** ** Where the code departs from C4, C6 and C9 *)

(** C4 fails when the publish fails: with the connection lost,
    [on_remove_user] shows the error and alice stays in the roster. *)
Lemma remove_user_kept_when_publish_fails :
  let a := run _on_disconnect example_producer in
  let a' := run (on_remove_user (py "alice")) a in
  is_user (producer_view a) (py "alice") = true /\
  trace a' = [ShowError "Error removing user" (Some RuntimeError)] /\
  is_user (producer_view a') (py "alice") = true.
Proof. vm_compute. repeat split. Qed.


(** C9 fails outside ASCII: a room id of five accented capitals does not
    match the pattern, is accepted, and the join goes to the network. *)
Lemma accented_room_id_is_accepted :
  let a := with_observer {| room_entry := Some (Alive example_accented);
                            username_entry := Some (Alive (py "bob"));
                            current_room_id := None; current_username := None |}
             example_observer in
  room_id_pattern (@upper example_python (@strip example_python example_accented)) = false /\
  @validate_room_id example_python
    (@upper example_python (@strip example_python example_accented)) = true /\
  trace (run (@_on_join_clicked example_python) a) =
    [Subscribe (topic_of example_accented (py "bob"));
     Publish (topic_of example_accented (py "bob")) (JObj example_join)].
Proof. vm_compute. repeat split. Qed.

(** The same holds with any runtime: the characters are below U+0100. *)
Lemma accented_room_id_any_runtime `{Python} :
  validate_room_id (upper (strip example_accented)) = true.
Proof. reflexivity. Qed.

(** ** The theorems at concrete inputs *)

(** C1 fails on a roster entry whose widgets are gone. After the producer
    has left a room and opened a second one, alice, who joined the first, is
    still a key of the roster with a destroyed time entry; her JOIN in the
    second room is ignored, and her SYNC_REQ there, with bob selected as
    main observer, publishes nothing. *)
Lemma sync_req_lost_example :
  let a := @after example_python example_second_room initial_app in
  current_view a = PRODUCER /\
  assoc (py "action") example_sync_req = Some (JStr (py "SYNC_REQ")) /\
  (slash ∉ py "alice") /\
  room_id (producer_view a) = Some (py "FGHIJ") /\
  get_main_observer (producer_view a) = Some (py "bob") /\
  connected_users (producer_view a) !! py "alice" = Some Destroyed /\
  online a = true /\
  @_on_message example_python example_world (topic_of (py "FGHIJ") (py "alice"))
    (Some (JObj example_sync_req)) a = (Returns tt, a).
Proof.
  intros a.
  split; [reflexivity|]. split; [reflexivity|]. split; [exact no_slash_in_alice|].
  split; [reflexivity|]. split; [reflexivity|]. split; [reflexivity|].
  split; [reflexivity|].
  exact (proj2 (@sync_req_is_lost_with_destroyed_entry example_python a example_world
                  (py "FGHIJ") (py "alice") (py "bob") example_sync_req
                  eq_refl eq_refl no_slash_in_alice eq_refl eq_refl eq_refl
                  (or_introl eq_refl))).
Defined.

(** Where the entries are on screen, the relay is as C1 has it. *)
Lemma sync_req_relay_example :
  trace (run (@_on_message example_python example_world (topic_of (py "ABCDE") (py "alice"))
                (Some (JObj example_sync_req))) example_producer) =
    trace example_producer ++
      [Publish (topic_of (py "ABCDE") (py "bob"))
         (JObj [(py "action", JStr (py "TIME_REQ"));
                (py "requester", JStr (py "alice"));
                (py "requester_delay", JInt 500);
                (py "main_observer_delay", JInt 1000)])].
Proof.
  exact (proj1 (@sync_req_is_relayed_when_entries_are_read example_python example_producer
                  example_world (py "ABCDE") (py "alice") example_sync_req
                  eq_refl eq_refl no_slash_in_alice)
           (py "bob") 1000 (Some 500) eq_refl eq_refl eq_refl eq_refl eq_refl eq_refl).
Qed.



Lemma roster_example :
  let evs := [Deliver example_world (py "ABCDE/alice") (Some (JObj example_join));
              Deliver example_world (py "ABCDE/bob") (Some (JObj example_join));
              ClickMainObserver (py "alice");
              ClickMainObserver (py "bob");
              ClickRemove (py "alice")] in
  connected_users (producer_view example_room) = ∅ /\
  get_main_observer (producer_view example_room) = None /\
  (length (main_observers (producer_view (@after example_python evs example_room))) <= 1)%nat.
Proof.
  intros evs. split; [reflexivity|]. split; [reflexivity|].
  exact (proj1 (@at_most_one_main_observer example_python evs example_room eq_refl eq_refl)).
Defined.

Lemma on_remove_user_example :
  current_view example_producer = PRODUCER /\
  room_id (producer_view example_producer) = Some (py "ABCDE") /\
  is_user (producer_view example_producer) (py "alice") = true /\
  trace (run (on_remove_user (py "alice")) example_producer) =
    trace example_producer ++
      [Publish (topic_of (py "ABCDE") (py "alice")) (JObj [(py "action", JStr (py "LEAVE"))])].
Proof.
  split; [reflexivity|]. split; [reflexivity|]. split; [reflexivity|].
  exact (proj1 (on_remove_user_deletes_after_publish example_producer (py "ABCDE") (py "alice")
                  eq_refl eq_refl eq_refl eq_refl eq_refl)).
Defined.

Lemma time_source_failure_example :
  assoc (py "action") example_time_req_items = Some (JStr (py "TIME_REQ")) /\
  playback_get example_unreachable = Raises RequestException /\
  result (@_on_message example_python example_unreachable (py "ABCDE/bob")
            (Some (JObj example_time_req_items))) example_bob = Returns tt.
Proof.
  split; [reflexivity|]. split; [reflexivity|].
  exact (proj1 (@time_source_failure_drops_response example_python example_bob
                  example_unreachable (py "ABCDE/bob") example_time_req_items
                  RequestException eq_refl eq_refl)).
Defined.


Lemma join_twice_example :
  producing example_room /\
  assoc (py "action") example_join = Some (JStr (py "JOIN")) /\
  (slash ∉ py "alice") /\
  let join := @_on_message example_python example_world (topic_of (py "ABCDE") (py "alice"))
                (Some (JObj example_join)) in
  exists t, entries_of (producer_view (run join (run join example_room))) (py "alice")
            = [(py "alice", t)].
Proof.
  assert (Hp : producing example_room).
  { split; [reflexivity|]. split; [reflexivity|]. eexists; reflexivity. }
  split; [exact Hp|]. split; [reflexivity|]. split; [exact no_slash_in_alice|].
  exact (proj1 (@join_twice_leaves_one_entry example_python example_room example_world
                  (py "ABCDE") (py "alice") example_join Hp eq_refl no_slash_in_alice)).
Defined.

Lemma room_id_example :
  is_ascii (py " abcde ") /\
  @validate_room_id example_python (@upper example_python (@strip example_python (py " abcde ")))
  = room_id_pattern (@upper example_python (@strip example_python (py " abcde "))).
Proof.
  assert (Ha : is_ascii (py " abcde ")).
  { apply (bool_decide_unpack _). vm_compute. exact I. }
  split; [exact Ha|].
  exact (proj1 (@room_id_validation example_python (py " abcde ")) Ha).
Defined.

Lemma sync_response_default_example :
  current_view example_bob = OBSERVER /\
  assoc (py "value") example_sync_response = None /\
  trace (run (@_on_message example_python example_world (py "ABCDE/bob")
                (Some (JObj example_sync_response))) example_bob) =
    trace example_bob ++
      [HttpPost (JObj [(py "length", JInt 0); (py "paused", JBool false);
                       (py "seeking", JBool true); (py "speed", JInt 1);
                       (py "time", JInt 0)])].
Proof.
  split; [reflexivity|]. split; [reflexivity|].
  exact (@sync_response_without_value_applies_zero example_python example_bob example_world
           (py "ABCDE/bob") example_sync_response eq_refl eq_refl eq_refl).
Defined.


(** * Further properties of the code *)

(** ** Validation ([utils/helpers.py]) *)

Section MoreValidation.
Context `{Python}.

Lemma strip_idempotent (s : str) : strip (strip s) = strip s.
Proof.
  destruct (strip_trimmed s) as [Hl Hr]. apply strip_of_trimmed; assumption.
Qed.

Lemma strip_nil : strip [] = [].
Proof. reflexivity. Qed.

(** X1. [_on_join_clicked] strips the username before [validate_username]
    strips it again: the verdict on a text and on its stripped form is the
    same, for every text. *)
Theorem validate_username_ignores_padding (text : str) :
  validate_username (strip text) = validate_username text.
Proof.
  unfold validate_username. rewrite strip_idempotent.
  destruct text as [|c text]; [reflexivity|].
  simpl truthy at 2. simpl negb at 2. cbv iota.
  destruct (strip (c :: text)) as [|d r] eqn:E; reflexivity.
Qed.

Lemma allowed_chars_no_slash (s : str) :
  forallb allowed_chars s = true -> slash ∉ s.
Proof.
  intros Hs Hin. rewrite forallb_forall in Hs.
  apply list_elem_of_In in Hin. specialize (Hs _ Hin). discriminate.
Qed.

Lemma validate_username_allowed (text : str) :
  validate_username text = true ->
  (3 <= length (strip text) <= 20)%nat /\ forallb allowed_chars (strip text) = true.
Proof.
  unfold validate_username. destruct (negb (truthy text)); [discriminate|].
  destruct (length (strip text) <? 3)%nat eqn:E3; [discriminate|].
  destruct (20 <? length (strip text))%nat eqn:E20; [discriminate|].
  simpl. intros Hall. apply Nat.ltb_ge in E3, E20. repeat split; assumption.
Qed.

(** X2. A username accepted by [validate_username] has 3 to 20 characters,
    none of them a slash, so the producer gets it back from the topic
    room/username: an inbound JOIN on that topic, with the producer view on
    screen, puts exactly this username in the roster. *)
Theorem accepted_username_reaches_roster
    (a : ChronosPYApp) (w : World) (room text : str) (items : list (str * json)) :
  validate_username text = true ->
  producing a ->
  assoc (py "action") items = Some (JStr (py "JOIN")) ->
  let username := strip text in
  (3 <= length username <= 20)%nat /\
  List.last (split slash (topic_of room username)) [] = username /\
  is_user (producer_view (run (_on_message w (topic_of room username) (Some (JObj items))) a))
    username = true.
Proof.
  intros Hvalid (Hview & Hframe & Hvar) Haction username.
  destruct (validate_username_allowed text Hvalid) as [Hlen Hall].
  assert (Hslash : slash ∉ username) by (apply allowed_chars_no_slash; assumption).
  split; [exact Hlen|]. split; [apply topic_parts; assumption|].
  unfold run. rewrite join_is_add_user by assumption.
  rewrite add_user_runs. simpl.
  destruct (is_user (producer_view a) username) eqn:Hin; simpl; [exact Hin|].
  rewrite Hframe, (bool_decide_eq_true_2 _ Hvar). simpl.
  unfold is_user. simpl. rewrite lookup_insert_eq. reflexivity.
Qed.

Lemma characters_facts (x : N) :
  x ∈ characters ->
  isspace x = false /\ upper_char x = [x] /\ isalnum_char x = true /\
  (ascii_isupper x || ascii_isdigit x)%bool = true.
Proof.
  intros Hx.
  assert (Hall : Forall (fun x => isspace x = false /\ upper_char x = [x] /\
                                  isalnum_char x = true /\
                                  (ascii_isupper x || ascii_isdigit x)%bool = true) characters).
  { unfold characters. vm_compute py. repeat constructor. }
  rewrite Forall_forall in Hall. apply Hall, Hx.
Qed.

Lemma concat_draw (choices : list str) :
  Forall (fun c => exists x, x ∈ characters /\ c = [x]) choices ->
  Forall (fun x => x ∈ characters) (concat choices) /\
  length (concat choices) = length choices.
Proof.
  induction 1 as [|c choices (x & Hx & ->) _ [IH1 IH2]]; simpl.
  - split; [constructor|reflexivity].
  - split; [constructor; assumption|]. rewrite IH2. reflexivity.
Qed.

Lemma lstrip_no_space (s : str) :
  Forall (fun x => isspace x = false) s -> lstrip s = s.
Proof. destruct 1 as [|x s Hx _]; simpl; [reflexivity|]. rewrite Hx. reflexivity. Qed.

(** X3. Every room id [generate_room_id] can produce matches
    [^[A-Z0-9]{5}$], is left unchanged by the trimming and upper-casing of
    the observer's join form, and passes [validate_room_id]: an observer that
    types the id shown by the producer joins that very room. *)
Theorem generated_room_id_is_accepted (choices : list str) :
  is_draw choices ->
  let room := generate_room_id choices in
  room_id_pattern room = true /\
  upper (strip room) = room /\
  validate_room_id room = true.
Proof.
  intros [Hlen Hdraw] room. unfold room, generate_room_id.
  destruct (concat_draw choices Hdraw) as [Hchars Hlength].
  rewrite Hlen in Hlength. set (r := concat choices) in *.
  assert (Hfacts : Forall (fun x => isspace x = false /\ upper_char x = [x] /\
                              isalnum_char x = true /\
                              (ascii_isupper x || ascii_isdigit x)%bool = true) r).
  { eapply Forall_impl; [exact Hchars|]. intros x Hx. apply characters_facts, Hx. }
  assert (Hstrip : strip r = r).
  { apply strip_of_trimmed; apply lstrip_no_space.
    - eapply Forall_impl; [exact Hfacts|]. intros x Hx. apply Hx.
    - apply Forall_rev. eapply Forall_impl; [exact Hfacts|]. intros x Hx. apply Hx. }
  assert (Hupper : upper r = r).
  { unfold upper. clear -Hfacts. induction Hfacts as [|x r (_ & Hx & _) _ IH]; simpl;
      [reflexivity|]. rewrite Hx, IH. reflexivity. }
  assert (Hpattern : forallb (fun c => ascii_isupper c || ascii_isdigit c)%bool r = true).
  { apply forallb_forall. intros x Hx. rewrite Forall_forall in Hfacts.
    apply Hfacts. apply list_elem_of_In. exact Hx. }
  assert (Halnum : forallb isalnum_char r = true).
  { apply forallb_forall. intros x Hx. rewrite Forall_forall in Hfacts.
    apply Hfacts. apply list_elem_of_In. exact Hx. }
  split; [|split].
  - unfold room_id_pattern. rewrite Hlength, Hpattern. reflexivity.
  - rewrite Hstrip. exact Hupper.
  - unfold validate_room_id, isalnum. rewrite Hstrip, Hupper, Hlength, Halnum.
    destruct r; [discriminate|reflexivity].
Qed.

(** X4. [validate_mqtt_config] accepts exactly when the URL and the port
    hold a character that is no space and [int(port)] is a number from 1 to
    65535; it gives an error message exactly when it rejects. *)
Theorem validate_mqtt_config_accepts (url port : str) :
  (fst (validate_mqtt_config url port) = true <->
   truthy (strip url) = true /\ truthy (strip port) = true /\
   exists n, int_of_str port = Some n /\ 1 <= n <= 65535) /\
  (snd (validate_mqtt_config url port) = None <-> fst (validate_mqtt_config url port) = true).
Proof.
  unfold validate_mqtt_config.
  assert (Hnil : forall s : str, truthy s = false -> truthy (strip s) = false).
  { intros [|c s]; [reflexivity|discriminate]. }
  destruct (truthy url) eqn:Hu; simpl.
  2:{ rewrite (Hnil url Hu). split; split; try discriminate. intros (? & _); discriminate. }
  destruct (truthy (strip url)) eqn:Hsu; simpl.
  2:{ split; split; try discriminate. intros (? & _); discriminate. }
  destruct (truthy port) eqn:Hp; simpl.
  2:{ rewrite (Hnil port Hp). split; split; try discriminate. intros (_ & ? & _); discriminate. }
  destruct (truthy (strip port)) eqn:Hsp; simpl.
  2:{ split; split; try discriminate. intros (_ & ? & _); discriminate. }
  destruct (int_of_str port) as [n|] eqn:Hint.
  2:{ split; split; try discriminate. intros (_ & _ & n & Hn & _); discriminate. }
  destruct (n <=? 0) eqn:H0; simpl.
  { apply Z.leb_le in H0. split; split; try discriminate.
    intros (_ & _ & m & [= <-] & Hm). lia. }
  destruct (65535 <? n) eqn:H1; simpl.
  { apply Z.ltb_lt in H1. split; split; try discriminate.
    intros (_ & _ & m & [= <-] & Hm). lia. }
  apply Z.leb_gt in H0. apply Z.ltb_ge in H1.
  split; split; try reflexivity. intros _. repeat split. exists n. split; [reflexivity|lia].
Qed.

End MoreValidation.

(** ** The roster ([ui/views.py]: [ProducerView]) *)

Section MoreRoster.
Context `{Python}.

(** X5. Removing an entry with the button of the roster ([remove_user])
    touches neither the network nor anything outside the producer view. An
    absent username changes nothing; a present one loses its entry, the other
    entries stay, and the main observer is cleared exactly when it was the
    removed username. *)
Theorem remove_user_effect (a : ChronosPYApp) (u : str) :
  let v := producer_view a in
  let a' := run (remove_user u) a in
  let v' := producer_view a' in
  trace a' = trace a /\
  current_view a' = current_view a /\
  mqtt_manager a' = mqtt_manager a /\
  observer_view a' = observer_view a /\
  (is_user v u = false -> a' = a) /\
  (is_user v u = true ->
     is_user v' u = false /\
     (forall p, p <> u -> connected_users v' !! p = connected_users v !! p) /\
     get_main_observer v' = if is_main_observer v u then None else get_main_observer v).
Proof.
  intros v a' v'. unfold v', a', v, run. rewrite remove_user_runs. simpl.
  destruct (is_user (producer_view a) u) eqn:Hin; simpl.
  - do 4 (split; [reflexivity|]). split; [discriminate|]. intros _. split; [|split].
    + unfold is_user. simpl. rewrite lookup_delete_eq. reflexivity.
    + intros p Hp. simpl. rewrite lookup_delete_ne by congruence. reflexivity.
    + unfold is_main_observer, get_main_observer. simpl.
      destruct (main_observer_var (producer_view a)) as [main|]; [|reflexivity].
      destruct (bool_decide (main = u)) eqn:E.
      * apply bool_decide_eq_true in E. subst main. simpl.
        destruct (truthy u) eqn:Hu; [|reflexivity].
        rewrite bool_decide_eq_true_2; reflexivity.
      * apply bool_decide_eq_false in E. destruct (truthy main); [|reflexivity].
        rewrite bool_decide_eq_false_2; [reflexivity|congruence].
  - do 4 (split; [reflexivity|]). split; [reflexivity|discriminate].
Qed.

Lemma app_eta (a : ChronosPYApp) (v : ProducerView) :
  v = producer_view a -> with_producer v a = a.
Proof. intros ->. destruct a. reflexivity. Qed.

(** X6. With the producer view on screen and the main observer in the
    roster, a JOIN of an unseen username followed by its LEAVE gives back the
    state before the JOIN; a LEAVE of an unseen username alone changes
    nothing. *)
Theorem join_then_leave_restores
    (a : ChronosPYApp) (w : World) (room u : str) (joins leaves : list (str * json)) :
  producing a ->
  main_in_roster (producer_view a) ->
  is_user (producer_view a) u = false ->
  slash ∉ u ->
  assoc (py "action") joins = Some (JStr (py "JOIN")) ->
  assoc (py "action") leaves = Some (JStr (py "LEAVE")) ->
  let join := _on_message w (topic_of room u) (Some (JObj joins)) in
  let leave := _on_message w (topic_of room u) (Some (JObj leaves)) in
  run leave (run join a) = a /\ run leave a = a.
Proof.
  intros (Hview & Hframe & Hvar) Hmain Hin Hu Hjoin Hleave join leave.
  assert (Hnone : connected_users (producer_view a) !! u = None).
  { unfold is_user in Hin. destruct (connected_users (producer_view a) !! u); congruence. }
  split.
  - unfold leave, join, run. rewrite (join_is_add_user a w room u joins) by assumption.
    rewrite add_user_runs. simpl.
    rewrite Hin, Hframe, (bool_decide_eq_true_2 _ Hvar). simpl.
    rewrite leave_is_remove_user by assumption.
    rewrite remove_user_runs. simpl. unfold is_user at 1. simpl.
    rewrite lookup_insert_eq. simpl.
    rewrite delete_insert_id by assumption.
    destruct a as [view mqtt v o tr]. destruct v as [rid users frame var]. simpl in *.
    subst view frame. unfold with_producer. simpl.
    destruct var as [main|]; [|destruct Hvar; discriminate].
    destruct (bool_decide (main = u)) eqn:E; [|reflexivity].
    apply bool_decide_eq_true in E. subst main.
    destruct u as [|c u]; [reflexivity|].
    exfalso. specialize (Hmain (c :: u) eq_refl).
    unfold is_user in Hmain. simpl in Hmain. rewrite Hnone in Hmain. discriminate.
  - unfold leave, run. rewrite leave_is_remove_user by assumption.
    rewrite remove_user_runs. simpl. rewrite Hin. reflexivity.
Qed.

(** X7. The delay a TIME_REQ carries for its requester is what the operator
    last typed in the requester's time entry. After [text] has been typed
    in the entry of the roster member R, which is on screen, a SYNC_REQ on
    room/R is relayed to the main observer M with the requester delay that
    [int] makes of [text], or 1000 when [text] is no number, and with the
    delay of M as it was (M being another member whose entry can be read,
    the transport connected). Typing for a username that has no entry on
    screen changes nothing. *)
Theorem typed_delay_is_relayed
    (a : ChronosPYApp) (w : World) (room R M text : str) (items : list (str * json))
    (dM : Z) :
  current_view a = PRODUCER -> online a = true ->
  room_id (producer_view a) = Some room -> truthy room = true ->
  assoc (py "action") items = Some (JStr (py "SYNC_REQ")) ->
  slash ∉ R ->
  get_main_observer (producer_view a) = Some M -> M <> R ->
  get_user_time (producer_view a) M = Returns (Some dM) ->
  let a1 := run (edit_time_entry R text) a in
  (forall old, connected_users (producer_view a) !! R = Some (Alive old) ->
     trace (run (_on_message w (topic_of room R) (Some (JObj items))) a1) =
       trace a ++
         [Publish (topic_of room M)
            (JObj [(py "action", JStr (py "TIME_REQ"));
                   (py "requester", JStr R);
                   (py "requester_delay", JInt (default 1000 (int_of_str text)));
                   (py "main_observer_delay", JInt dM)])]) /\
  (connected_users (producer_view a) !! R = Some Destroyed \/
   connected_users (producer_view a) !! R = None -> a1 = a).
Proof.
  intros Hview Honline Hroom Hr Haction HR HM Hne HdM a1. split.
  - intros old Hold.
    assert (Ha1 : a1 = with_producer
              {| room_id := room_id (producer_view a);
                 connected_users := <[R := Alive text]> (connected_users (producer_view a));
                 users_frame := users_frame (producer_view a);
                 main_observer_var := main_observer_var (producer_view a) |} a).
    { unfold a1, run, edit_time_entry, update_producer. unfold_m. rewrite Hold.
      reflexivity. }
    assert (Htrace : trace a1 = trace a) by (rewrite Ha1; reflexivity).
    rewrite <- Htrace.
    apply (proj1 (sync_req_is_relayed_when_entries_are_read a1 w room R items
                    ltac:(rewrite Ha1; exact Hview) Haction HR)
             M dM (Some (default 1000 (int_of_str text)))).
    + rewrite Ha1. exact Honline.
    + rewrite Ha1. exact Hroom.
    + exact Hr.
    + rewrite Ha1. exact HM.
    + rewrite Ha1. unfold get_user_time in *. simpl.
      rewrite lookup_insert_ne by congruence. exact HdM.
    + rewrite Ha1. unfold get_user_time. simpl. rewrite lookup_insert_eq. reflexivity.
  - intros Hnone. unfold a1, run, edit_time_entry. unfold_m.
    destruct Hnone as [-> | ->]; reflexivity.
Qed.

(** X8. The assign button of a roster member publishes one ASSIGN with the
    delay of its entry to room/username and leaves the roster alone; with the
    transport down the error is shown instead. For a username without an
    entry the button does nothing. *)
Theorem assign_publishes_the_entry_delay (a : ChronosPYApp) (u : str) :
  let v := producer_view a in
  let a' := run (_on_assign_clicked u) a in
  (forall room t,
     current_view a = PRODUCER ->
     room_id v = Some room -> truthy room = true -> truthy u = true ->
     get_user_time v u = Returns (Some t) ->
     producer_view a' = v /\
     trace a' = trace a ++
       [if online a
        then Publish (topic_of room u)
               (JObj [(py "action", JStr (py "ASSIGN")); (py "time_ms", JInt t)])
        else ShowError "Error sending assignment" (Some RuntimeError)]) /\
  (is_user v u = false -> a' = a).
Proof.
  intros v a'. unfold a', v, run, _on_assign_clicked, on_assign_user, publish, online.
  unfold_m. split.
  - intros room t Hview Hroom Hr Hu Ht. rewrite Ht. simpl.
    rewrite Hview, Hroom, Hr, Hu. simpl.
    destruct (_client (mqtt_manager a)); simpl; [|split; reflexivity].
    destruct (_is_connected (mqtt_manager a)); simpl; split; reflexivity.
  - intros Hin. unfold get_user_time, is_user in *.
    destruct (connected_users (producer_view a) !! u); [discriminate|reflexivity].
Qed.

Lemma sync_req_without_main_observer
    (a : ChronosPYApp) (w : World) (topic : str) (items : list (str * json)) :
  current_view a = PRODUCER ->
  assoc (py "action") items = Some (JStr (py "SYNC_REQ")) ->
  get_main_observer (producer_view a) = None ->
  run (_on_message w topic (Some (JObj items))) a = a.
Proof.
  intros Hview Haction Hmain.
  unfold _on_message, _on_mqtt_message_received, add_message, _handle_sync_request,
    json_loads, dict_get.
  unfold_m. cbv zeta. rewrite Hview, Haction. simpl.
  destruct (length (split slash topic) <? 2)%nat; simpl; [reflexivity|].
  rewrite Hmain. reflexivity.
Qed.

(** X9. Once the LEAVE of the main observer has been received, nobody is
    main observer, and a SYNC_REQ of any requester is dropped: nothing is
    published and the state is as after the LEAVE. *)
Theorem sync_req_after_main_observer_left
    (a : ChronosPYApp) (w : World) (room main topic : str)
    (leaves syncs : list (str * json)) :
  current_view a = PRODUCER ->
  get_main_observer (producer_view a) = Some main ->
  is_user (producer_view a) main = true ->
  slash ∉ main ->
  assoc (py "action") leaves = Some (JStr (py "LEAVE")) ->
  assoc (py "action") syncs = Some (JStr (py "SYNC_REQ")) ->
  let a1 := run (_on_message w (topic_of room main) (Some (JObj leaves))) a in
  get_main_observer (producer_view a1) = None /\
  is_user (producer_view a1) main = false /\
  trace a1 = trace a /\
  run (_on_message w topic (Some (JObj syncs))) a1 = a1.
Proof.
  intros Hview Hmain Hin Hslash Hleave Hsync a1.
  assert (Ha1 : a1 = run (remove_user main) a).
  { unfold a1, run. rewrite leave_is_remove_user by assumption. reflexivity. }
  assert (Hview1 : current_view a1 = PRODUCER).
  { rewrite Ha1. unfold run. rewrite remove_user_runs. simpl.
    destruct (negb _); assumption. }
  assert (Hnone : get_main_observer (producer_view a1) = None).
  { rewrite Ha1. unfold run. rewrite remove_user_runs. simpl. rewrite Hin. simpl.
    unfold get_main_observer in *. simpl.
    destruct (main_observer_var (producer_view a)) as [m|]; [|reflexivity].
    destruct (truthy m) eqn:Hm; [|discriminate]. injection Hmain as ->.
    rewrite bool_decide_eq_true_2; reflexivity. }
  split; [exact Hnone|]. split; [|split].
  - rewrite Ha1. unfold run. rewrite remove_user_runs. simpl. rewrite Hin. simpl.
    unfold is_user. simpl. rewrite lookup_delete_eq. reflexivity.
  - rewrite Ha1. unfold run. rewrite remove_user_runs. simpl.
    destruct (negb _); reflexivity.
  - apply sync_req_without_main_observer; assumption.
Qed.

(** X10. A message on a topic without a slash is ignored by the producer
    whatever its action: no entry is added or removed and nothing is
    published. *)
Theorem topic_without_slash_is_ignored
    (a : ChronosPYApp) (w : World) (topic : str) (items : list (str * json)) :
  current_view a = PRODUCER ->
  slash ∉ topic ->
  _on_message w topic (Some (JObj items)) a = (Returns tt, a).
Proof.
  intros Hview Htopic.
  unfold _on_message, _on_mqtt_message_received, add_message, _handle_sync_request,
    json_loads, dict_get.
  unfold_m. cbv zeta. rewrite Hview, (split_without_separator topic Htopic). simpl.
  destruct (eq_str _ (py "SYNC_REQ")); simpl; [reflexivity|].
  destruct (eq_str _ (py "JOIN") || eq_str _ (py "LEAVE"))%bool; reflexivity.
Qed.

End MoreRoster.

(** ** The observer and the ways out of its view *)

Section MoreObserver.
Context `{Python}.

(** X11. Each role ignores the actions of the other. The observer, which
    publishes on the topic it is subscribed to, ignores the echo of its own
    JOIN, LEAVE and SYNC_REQ, and an ASSIGN; the producer, subscribed to the
    whole room, ignores TIME_REQ, ASSIGN and SYNC_RESPONSE. The state is
    unchanged and nothing is sent. *)
Theorem foreign_actions_are_ignored
    (a : ChronosPYApp) (w : World) (topic name : str) (items : list (str * json)) :
  assoc (py "action") items = Some (JStr name) ->
  (current_view a = OBSERVER ->
   name ∈ [py "ASSIGN"; py "JOIN"; py "LEAVE"; py "SYNC_REQ"] ->
   _on_message w topic (Some (JObj items)) a = (Returns tt, a)) /\
  (current_view a = PRODUCER ->
   name ∈ [py "TIME_REQ"; py "ASSIGN"; py "SYNC_RESPONSE"] ->
   _on_message w topic (Some (JObj items)) a = (Returns tt, a)).
Proof.
  intros Haction. split; intros Hview Hname.
  - unfold _on_message, _on_mqtt_message_received, add_received_message,
      json_loads, dict_get.
    unfold_m. rewrite Hview, Haction.
    repeat (apply elem_of_cons in Hname as [->|Hname]; [reflexivity|]).
    apply elem_of_nil in Hname. contradiction.
  - unfold _on_message, _on_mqtt_message_received, add_message, json_loads, dict_get.
    unfold_m. rewrite Hview, Haction.
    repeat (apply elem_of_cons in Hname as [->|Hname]; [reflexivity|]).
    apply elem_of_nil in Hname. contradiction.
Qed.

(** X12. The sync request never raises and never changes the session.
    Without a session it only tells the operator to join first; with a
    session it publishes one SYNC_REQ on the observer's own topic, or shows
    the error when the transport is down. *)
Theorem sync_request_behaviour (a : ChronosPYApp) :
  let a' := run on_sync_requested a in
  result on_sync_requested a = Returns tt /\
  observer_view a' = observer_view a /\
  (has_session (observer_view a) = false ->
   trace a' = trace a ++ [ShowError "You must join a room first" None]) /\
  (forall room username,
     current_room_id (observer_view a) = Some room -> truthy room = true ->
     current_username (observer_view a) = Some username -> truthy username = true ->
     trace a' = trace a ++
       [if online a
        then Publish (topic_of room username) (JObj [(py "action", JStr (py "SYNC_REQ"))])
        else ShowError "Error sending message" (Some RuntimeError)]).
Proof.
  intros a'. unfold a', run, result, on_sync_requested, publish_sync_message,
    has_session, online.
  unfold_m.
  destruct (current_room_id (observer_view a)) as [room|] eqn:Hroom; simpl;
    [destruct (current_username (observer_view a)) as [username|] eqn:Huser; simpl;
     [destruct (truthy room) eqn:Hr; simpl;
      [destruct (truthy username) eqn:Hu; simpl|]|]|].
  - destruct (_client (mqtt_manager a)), (_is_connected (mqtt_manager a)); simpl;
      (split; [reflexivity|]); (split; [reflexivity|]); (split; [discriminate|]);
      intros ? ? [= <-] _ [= <-] _; reflexivity.
  - (split; [reflexivity|]); (split; [reflexivity|]); (split; [reflexivity|]).
    intros ? ? [= <-] _ [= <-] Hu'. congruence.
  - (split; [reflexivity|]); (split; [reflexivity|]); (split; [reflexivity|]).
    intros ? ? [= <-] Hr'. congruence.
  - (split; [reflexivity|]); (split; [reflexivity|]); (split; [reflexivity|]).
    intros; discriminate.
  - (split; [reflexivity|]); (split; [reflexivity|]); (split; [reflexivity|]).
    intros; discriminate.
Qed.

(** X13. A join with a valid room id and username sets the session fields
    first and then goes to the network: it subscribes to room/username and
    publishes JOIN there. With the transport down only the error is shown,
    and the session fields are set all the same. An invalid username, the
    room id being valid, shows an error and changes nothing. *)
Theorem join_sets_session_then_subscribes
    (a : ChronosPYApp) (room_text username_text : str) :
  room_entry (observer_view a) = Some (Alive room_text) ->
  username_entry (observer_view a) = Some (Alive username_text) ->
  validate_room_id (upper (strip room_text)) = true ->
  let room := upper (strip room_text) in
  let username := strip username_text in
  let a' := run _on_join_clicked a in
  (validate_username username = true ->
     current_room_id (observer_view a') = Some room /\
     current_username (observer_view a') = Some username /\
     trace a' = trace a ++
       (if online a
        then [Subscribe (topic_of room username);
              Publish (topic_of room username) (JObj [(py "action", JStr (py "JOIN"))])]
        else [ShowError "Error sending join message" (Some RuntimeError)])) /\
  (validate_username username = false ->
     observer_view a' = observer_view a /\ network (trace a') = network (trace a)).
Proof.
  intros Hroom Huser Hvalid room username a'. subst room username a'.
  unfold run, _on_join_clicked, on_room_joined, subscribe, publish, update_observer,
    online.
  unfold_m. cbv zeta. rewrite Hroom, Huser. simpl. rewrite Hvalid. simpl.
  split; intros Hname; rewrite Hname; simpl.
  - destruct (_client (mqtt_manager a)) eqn:Hc; simpl; [|repeat split].
    destruct (_is_connected (mqtt_manager a)) eqn:Hi; simpl; [|repeat split].
    rewrite Hc, Hi. simpl. repeat split. rewrite <- app_assoc. reflexivity.
  - split; [reflexivity|]. unfold network. rewrite List.filter_app. simpl.
    apply app_nil_r.
Qed.



End MoreObserver.

(** ** Modes, faulty messages and the transport *)

Section MoreProtocol.
Context `{Python}.

(** X16. Entering the producer mode from the mode selection gives a new
    room id and an empty selection and keeps the roster entries that are
    there: the usernames of an earlier room stay, and a JOIN of one of them
    is ignored. With a non-empty room id the producer subscribes to room/#,
    or shows the error when the transport is down. *)
Theorem producer_mode_keeps_old_roster (a : ChronosPYApp) (generated : str) :
  current_view a = MODE_SELECTION ->
  let a' := run (on_mode_selected generated (py "producer")) a in
  producing a' /\
  room_id (producer_view a') = Some generated /\
  get_main_observer (producer_view a') = None /\
  connected_users (producer_view a') = connected_users (producer_view a) /\
  observer_view a' = observer_view a /\
  (forall u, is_user (producer_view a) u = true -> run (add_user u) a' = a') /\
  (truthy generated = true ->
   trace a' = trace a ++
     [if online a then Subscribe (generated ++ py "/#")
      else ShowError "Error subscribing to topic" (Some RuntimeError)]).
Proof.
  intros Hview a'. unfold a'.
  destruct (_client (mqtt_manager a)) eqn:Hc;
    destruct (_is_connected (mqtt_manager a)) eqn:Hi;
    destruct (truthy generated) eqn:Hg;
    unfold run, on_mode_selected, _show_view, hide, _setup_producer_mode,
      ProducerView_show, update_producer, subscribe, online, producing;
    unfold_m; simpl;
    repeat (progress (rewrite ?Hview, ?Hc, ?Hi, ?Hg; simpl));
    (split; [split; [reflexivity|split; [reflexivity|eexists; reflexivity]]|]);
    do 4 (split; [reflexivity|]);
    (split; [|first [discriminate | intros _; reflexivity]]);
    intros u Hu; rewrite add_user_runs; simpl; unfold is_user in *; simpl;
    destruct (connected_users (producer_view a) !! u); try discriminate; reflexivity.
Qed.

(** X17. In every state a started application can reach, if the producer
    view is shown, the JOIN of an unseen username creates its entry with the
    text 1000 in the time entry; the other entries and the selection are
    kept and nothing is sent. *)
Theorem join_of_unseen_user_is_recorded
    (evs : list event) (w : World) (room u : str) (items : list (str * json)) :
  let a := after evs initial_app in
  current_view a = PRODUCER ->
  is_user (producer_view a) u = false ->
  slash ∉ u ->
  assoc (py "action") items = Some (JStr (py "JOIN")) ->
  let a' := run (_on_message w (topic_of room u) (Some (JObj items))) a in
  connected_users (producer_view a') =
    <[u := Alive (py "1000")]> (connected_users (producer_view a)) /\
  get_user_time (producer_view a') u = Returns (Some (default 1000 (int_of_str (py "1000")))) /\
  get_main_observer (producer_view a') = get_main_observer (producer_view a) /\
  trace a' = trace a.
Proof.
  intros a Hview Hin Hu Haction a'.
  destruct (producer_view_has_widgets evs Hview) as (_ & Hframe & Hvar). fold a in Hframe, Hvar.
  unfold a', run. rewrite join_is_add_user by assumption. rewrite add_user_runs. simpl.
  rewrite Hin, Hframe, (bool_decide_eq_true_2 _ Hvar). simpl.
  repeat split. unfold get_user_time. simpl. rewrite lookup_insert_eq. reflexivity.
Qed.



(** X19. A TIME_REQ that carries only its action is answered with the
    defaults of the handler: requester unknown and both delays 0, so the
    observer publishes the time T/1000 to room/unknown, for an integer time T
    of a magnitude below 1000 * (2^1024 - 2^970). *)
Theorem time_req_without_fields_uses_defaults
    (a : ChronosPYApp) (w : World) (topic room username : str)
    (items : list (str * json)) (T : Z) :
  current_view a = OBSERVER ->
  online a = true ->
  current_room_id (observer_view a) = Some room -> truthy room = true ->
  current_username (observer_view a) = Some username -> truthy username = true ->
  assoc (py "action") items = Some (JStr (py "TIME_REQ")) ->
  assoc (py "requester") items = None ->
  assoc (py "requester_delay") items = None ->
  assoc (py "main_observer_delay") items = None ->
  playback_get w = Returns (JInt T) ->
  Z.abs T < 1000 * float_limit ->
  trace (run (_on_message w topic (Some (JObj items))) a) =
    trace a ++ [HttpGet;
                Publish (topic_of room (py "unknown"))
                  (JObj [(py "action", JStr (py "SYNC_RESPONSE"));
                         (py "value", JFloat (T # 1000))])].
Proof.
  intros Hview Honline Hroom Hr Huser Hu Haction Hreq HdR HdM Hget Hrange.
  unfold _on_message, _on_mqtt_message_received, add_received_message,
    json_loads, dict_get.
  unfold_m. rewrite Hview, Haction, Hreq, HdR, HdM. simpl.
  rewrite (handle_time_request_runs a w topic room username (JStr (py "unknown")) 0 0 T)
    by assumption.
  replace (T + 0 - 0) with T by lia.
  apply Z.leb_gt in Hrange. rewrite Hrange. simpl.
  rewrite <- app_assoc. reflexivity.
Qed.


(** X21. A SYNC_REQ travels the whole way, where the producer can read the
    time entries of the requester and of the main observer: the TIME_REQ the
    producer publishes, delivered to the main observer, yields a
    SYNC_RESPONSE that, delivered to the requester, makes it post the time
    (T + dR - dM)/1000 to its sink, T being the integer time of the main
    observer and dR, dM the delays the producer holds, with T + dR - dM of a
    magnitude below 1000 * (2^1024 - 2^970). *)
Theorem sync_round_trip
    (producer main requester : ChronosPYApp) (wp wm wr : World)
    (room R M session_user : str) (syncs : list (str * json)) (dR dM T : Z) :
  current_view producer = PRODUCER -> online producer = true ->
  room_id (producer_view producer) = Some room -> truthy room = true ->
  get_main_observer (producer_view producer) = Some M ->
  get_user_time (producer_view producer) M = Returns (Some dM) ->
  get_user_time (producer_view producer) R = Returns (Some dR) ->
  slash ∉ R ->
  assoc (py "action") syncs = Some (JStr (py "SYNC_REQ")) ->
  current_view main = OBSERVER -> online main = true ->
  current_room_id (observer_view main) = Some room ->
  current_username (observer_view main) = Some session_user -> truthy session_user = true ->
  playback_get wm = Returns (JInt T) ->
  Z.abs (T + dR - dM) < 1000 * float_limit ->
  current_view requester = OBSERVER ->
  exists time_req sync_response,
    trace (run (_on_message wp (topic_of room R) (Some (JObj syncs))) producer) =
      trace producer ++ [Publish (topic_of room M) time_req] /\
    trace (run (_on_message wm (topic_of room M) (Some time_req)) main) =
      trace main ++ [HttpGet; Publish (topic_of room R) sync_response] /\
    trace (run (_on_message wr (topic_of room R) (Some sync_response)) requester) =
      trace requester ++ [HttpPost (playback_body (JFloat ((T + dR - dM) # 1000)))].
Proof.
  intros Hpv Hpo Hroom Hr HM HdM HdR HR Hsync Hmv Hmo Hmroom Hmuser Hmu Hget Hrange Hrv.
  apply Z.leb_gt in Hrange.
  eexists. eexists. split; [|split].
  - exact (proj1 (sync_req_is_relayed_when_entries_are_read producer wp room R syncs
                    Hpv Hsync HR) M dM (Some dR) Hpo Hroom Hr HM HdM HdR).
  - unfold _on_message, _on_mqtt_message_received, add_received_message,
      json_loads, dict_get.
    unfold_m. rewrite Hmv. simpl.
    rewrite (handle_time_request_runs main wm (topic_of room M) room session_user
               (JStr R) dR dM T) by assumption.
    rewrite Hrange. simpl. rewrite <- app_assoc. reflexivity.
  - unfold _on_message, _on_mqtt_message_received, add_received_message, set_time,
      json_loads, dict_get, playback_body.
    unfold_m. rewrite Hrv. simpl.
    destruct (playback_post wr) as [[]|e]; simpl; [reflexivity|].
    destruct e; reflexivity.
Qed.

End MoreProtocol.

(** ** The transport ([mqtt/client.py]) *)

Section MoreTransport.
Context `{Python}.

Lemma offline_perform (n : list effect) (e : effect) :
  is_network e = false -> preserves (offline n) (perform e).
Proof.
  intros He s [Ho Hn]. split; [exact Ho|].
  unfold run, perform. unfold_m. simpl. unfold network in *.
  rewrite List.filter_app. simpl. rewrite He, app_nil_r. exact Hn.
Qed.

Lemma offline_publish (n : list effect) (topic : str) (payload : json) :
  preserves (offline n) (publish topic payload).
Proof.
  intros s [Ho Hn]. unfold offline, online, run, publish in *. unfold_m.
  destruct (_client (mqtt_manager s)) eqn:Hc, (_is_connected (mqtt_manager s)) eqn:Hi;
    try discriminate; simpl; rewrite ?Hc, ?Hi; split; assumption.
Qed.

Lemma offline_subscribe (n : list effect) (topic : str) :
  preserves (offline n) (subscribe topic).
Proof.
  intros s [Ho Hn]. unfold offline, online, run, subscribe in *. unfold_m.
  destruct (_client (mqtt_manager s)) eqn:Hc, (_is_connected (mqtt_manager s)) eqn:Hi;
    try discriminate; simpl; rewrite ?Hc, ?Hi; split; assumption.
Qed.

Lemma offline_publish_sync_message (n : list effect) (room username : str) :
  preserves (offline n) (publish_sync_message room username).
Proof.
  intros s [Ho Hn]. unfold offline, online, run, publish_sync_message in *. unfold_m.
  destruct (_client (mqtt_manager s)) eqn:Hc, (_is_connected (mqtt_manager s)) eqn:Hi;
    try discriminate; simpl; rewrite ?Hc, ?Hi; split; assumption.
Qed.

Lemma offline_update_producer (n : list effect) (f : ProducerView -> ProducerView) :
  preserves (offline n) (update_producer f).
Proof. intros s Hs. exact Hs. Qed.

Lemma offline_update_observer (n : list effect) (f : ObserverView -> ObserverView) :
  preserves (offline n) (update_observer f).
Proof. intros s Hs. exact Hs. Qed.

Lemma offline_with_view (n : list effect) (view : AppView) :
  preserves (offline n) (update (with_view view)).
Proof. intros s Hs. exact Hs. Qed.

Lemma offline_with_hotkey (n : list effect) (h : bool) :
  preserves (offline n) (update (with_hotkey h)).
Proof. intros s Hs. exact Hs. Qed.

Lemma offline_disconnected (n : list effect) :
  preserves (offline n) (set_is_connected false).
Proof.
  intros s [Ho Hn]. split; [|exact Hn].
  unfold run, set_is_connected, online. unfold_m. simpl. apply andb_false_r.
Qed.

#[local] Hint Resolve offline_perform offline_publish offline_subscribe
  offline_publish_sync_message offline_update_producer offline_update_observer
  offline_with_view offline_with_hotkey offline_disconnected : preserves.

(** X22. While the transport is down the application sends nothing: no
    event, be it an inbound delivery, a button or a connection change, adds a
    publish or a subscription to what the network has seen. *)
Theorem offline_application_sends_nothing (ev : event) (a : ChronosPYApp) :
  online a = false ->
  network (trace (run (handler ev) a)) = network (trace a).
Proof.
  intros Ho.
  assert (Hdirect : forall m : M unit,
            preserves (offline (network (trace a))) m ->
            network (trace (run m a)) = network (trace a)).
  { intros m Hm. apply (Hm a). split; [exact Ho|reflexivity]. }
  destruct ev; try (apply Hdirect;
    unfold handler, _on_message, _on_mqtt_message_received,
      add_message, _handle_sync_request, on_send_time_request,
      add_received_message, _handle_time_request, on_send_time_response,
      get_current_time, set_time, json_loads, add_user, remove_user,
      select_main_observer, edit_time_entry,
      _on_assign_clicked, on_assign_user, on_remove_user, on_mode_selected,
      _setup_producer_mode, on_back_requested, on_disconnect_requested,
      _show_view, hide, ProducerView_hide, ObserverView_hide,
      ProducerView_show, ObserverView_show,
      edit_join_entries, _on_join_clicked, on_room_joined,
      on_sync_requested, _on_disconnect, disconnect;
    preserves_tac; fail).
  - unfold handler, run, on_connect_requested, connect, set_is_connected. unfold_m.
    destruct broker as [[]|e]; simpl; [reflexivity|].
    unfold network. rewrite List.filter_app. simpl. apply app_nil_r.
  - reflexivity.
Qed.

(** X23. A connection request never raises and never sends anything. When
    the broker cannot be reached the transport is marked as down and the
    operator sees the error; when it can, the transport is up exactly when
    the broker then answers with the return code 0. *)
Theorem connection_outcome (a : ChronosPYApp) (broker : outcome unit) (rc : Z) :
  let a1 := run (on_connect_requested broker) a in
  result (on_connect_requested broker) a = Returns tt /\
  _client (mqtt_manager a1) = true /\
  (forall e, broker = Raises e ->
     online a1 = false /\
     trace a1 = trace a ++ [ShowError "Connection Error" (Some Exception)]) /\
  (broker = Returns tt ->
     trace a1 = trace a /\
     online (run (_on_connect rc) a1) = (rc =? 0)).
Proof.
  intros a1. unfold a1, run, result, on_connect_requested, connect, _on_connect,
    set_is_connected, online.
  unfold_m. destruct broker as [[]|e]; simpl.
  - repeat split; intros; discriminate.
  - split; [reflexivity|]. split; [reflexivity|]. split; [|discriminate].
    intros e' _. split; reflexivity.
Qed.

End MoreTransport.

(** ** The further properties at concrete inputs *)

Lemma example_room_producing : producing example_room.
Proof. split; [reflexivity|]. split; [reflexivity|]. eexists; reflexivity. Qed.

Lemma no_slash_in_bob : slash ∉ py "bob".
Proof. apply (bool_decide_unpack _). vm_compute. exact I. Qed.

Lemma no_slash_in_room : slash ∉ py "ABCDE".
Proof. apply (bool_decide_unpack _). vm_compute. exact I. Qed.

Lemma accepted_username_example :
  @validate_username example_python (py " ab-12 ") = true /\
  producing example_room /\
  is_user
    (producer_view
       (run (@_on_message example_python example_world
               (topic_of (py "ABCDE") (@strip example_python (py " ab-12 ")))
               (Some (JObj example_join))) example_room))
    (@strip example_python (py " ab-12 ")) = true.
Proof.
  split; [reflexivity|]. split; [exact example_room_producing|].
  exact (proj2 (proj2 (@accepted_username_reaches_roster example_python example_room
                         example_world (py "ABCDE") (py " ab-12 ") example_join
                         eq_refl example_room_producing eq_refl))).
Defined.

Lemma generated_room_id_example :
  is_draw example_draw /\
  @validate_room_id example_python (generate_room_id example_draw) = true.
Proof.
  assert (Hd : is_draw example_draw).
  { split; [reflexivity|].
    repeat (constructor;
            [eexists; split; [|reflexivity]; apply (bool_decide_unpack _); vm_compute; exact I|]).
    constructor. }
  split; [exact Hd|].
  exact (proj2 (proj2 (@generated_room_id_is_accepted example_python example_draw Hd))).
Defined.

Lemma join_then_leave_example :
  producing example_room /\
  is_user (producer_view example_room) (py "alice") = false /\
  run (@_on_message example_python example_world (topic_of (py "ABCDE") (py "alice"))
         (Some (JObj example_leave)))
    (run (@_on_message example_python example_world (topic_of (py "ABCDE") (py "alice"))
            (Some (JObj example_join))) example_room)
  = example_room.
Proof.
  assert (Hm : main_in_roster (producer_view example_room)).
  { intros m Hm. discriminate. }
  split; [exact example_room_producing|]. split; [reflexivity|].
  exact (proj1 (@join_then_leave_restores example_python example_room example_world
                  (py "ABCDE") (py "alice") example_join example_leave
                  example_room_producing Hm eq_refl no_slash_in_alice eq_refl eq_refl)).
Defined.

Lemma main_observer_left_example :
  get_main_observer (producer_view example_producer) = Some (py "bob") /\
  is_user (producer_view example_producer) (py "bob") = true /\
  get_main_observer
    (producer_view
       (run (@_on_message example_python example_world (topic_of (py "ABCDE") (py "bob"))
               (Some (JObj example_leave))) example_producer)) = None.
Proof.
  split; [reflexivity|]. split; [reflexivity|].
  exact (proj1 (@sync_req_after_main_observer_left example_python example_producer
                  example_world (py "ABCDE") (py "bob") (py "ABCDE/alice")
                  example_leave example_sync_req
                  eq_refl eq_refl eq_refl no_slash_in_bob eq_refl eq_refl)).
Defined.

Lemma topic_without_slash_example :
  current_view example_producer = PRODUCER /\
  (slash ∉ py "ABCDE") /\
  @_on_message example_python example_world (py "ABCDE") (Some (JObj example_join))
    example_producer = (Returns tt, example_producer).
Proof.
  split; [reflexivity|]. split; [exact no_slash_in_room|].
  exact (@topic_without_slash_is_ignored example_python example_producer example_world
           (py "ABCDE") example_join eq_refl no_slash_in_room).
Defined.

Lemma foreign_action_example :
  assoc (py "action") example_join = Some (JStr (py "JOIN")) /\
  current_view example_bob = OBSERVER /\
  @_on_message example_python example_world (py "ABCDE/bob") (Some (JObj example_join))
    example_bob = (Returns tt, example_bob).
Proof.
  split; [reflexivity|]. split; [reflexivity|].
  apply (proj1 (@foreign_actions_are_ignored example_python example_bob example_world
                  (py "ABCDE/bob") (py "JOIN") example_join eq_refl) eq_refl).
  right. left.
Defined.

Lemma join_form_example :
  room_entry (observer_view example_bob) = Some (Alive (py "abcde")) /\
  username_entry (observer_view example_bob) = Some (Alive (py "bob")) /\
  @validate_room_id example_python (@upper example_python (@strip example_python (py "abcde")))
    = true /\
  @validate_username example_python (@strip example_python (py "bob")) = true /\
  trace (run (@_on_join_clicked example_python) example_bob) =
    trace example_bob ++
      [Subscribe (topic_of (@upper example_python (@strip example_python (py "abcde")))
                    (@strip example_python (py "bob")));
       Publish (topic_of (@upper example_python (@strip example_python (py "abcde")))
                  (@strip example_python (py "bob")))
         (JObj [(py "action", JStr (py "JOIN"))])].
Proof.
  split; [reflexivity|]. split; [reflexivity|]. split; [reflexivity|]. split; [reflexivity|].
  exact (proj2 (proj2 (proj1 (@join_sets_session_then_subscribes example_python example_bob
                                (py "abcde") (py "bob") eq_refl eq_refl eq_refl) eq_refl))).
Defined.


Lemma unseen_join_example :
  current_view (@after example_python example_start initial_app) = PRODUCER /\
  is_user (producer_view (@after example_python example_start initial_app)) (py "alice") = false /\
  connected_users
    (producer_view
       (run (@_on_message example_python example_world (topic_of (py "ABCDE") (py "alice"))
               (Some (JObj example_join)))
          (@after example_python example_start initial_app)))
  = <[py "alice" := Alive (py "1000")]>
      (connected_users (producer_view (@after example_python example_start initial_app))).
Proof.
  split; [reflexivity|]. split; [reflexivity|].
  exact (proj1 (@join_of_unseen_user_is_recorded example_python example_start example_world
                  (py "ABCDE") (py "alice") example_join
                  eq_refl eq_refl no_slash_in_alice eq_refl)).
Defined.


Lemma bare_time_req_example :
  current_view example_bob = OBSERVER /\
  assoc (py "requester") example_bare_time_req = None /\
  trace (run (@_on_message example_python example_world (py "ABCDE/bob")
                (Some (JObj example_bare_time_req))) example_bob) =
    trace example_bob ++
      [HttpGet;
       Publish (topic_of (py "ABCDE") (py "unknown"))
         (JObj [(py "action", JStr (py "SYNC_RESPONSE"));
                (py "value", JFloat (120000 # 1000))])].
Proof.
  split; [reflexivity|]. split; [reflexivity|].
  exact (@time_req_without_fields_uses_defaults example_python example_bob example_world
           (py "ABCDE/bob") (py "ABCDE") (py "bob") example_bare_time_req 120000
           eq_refl eq_refl eq_refl eq_refl eq_refl eq_refl
           eq_refl eq_refl eq_refl eq_refl eq_refl eq_refl).
Defined.


Lemma sync_round_trip_example :
  current_view example_producer = PRODUCER /\
  current_view example_bob = OBSERVER /\
  current_view example_observer = OBSERVER /\
  exists time_req sync_response,
    trace (run (@_on_message example_python example_world (topic_of (py "ABCDE") (py "alice"))
                  (Some (JObj example_sync_req))) example_producer) =
      trace example_producer ++ [Publish (topic_of (py "ABCDE") (py "bob")) time_req] /\
    trace (run (@_on_message example_python example_world (topic_of (py "ABCDE") (py "bob"))
                  (Some time_req)) example_bob) =
      trace example_bob ++ [HttpGet; Publish (topic_of (py "ABCDE") (py "alice")) sync_response] /\
    trace (run (@_on_message example_python example_world (topic_of (py "ABCDE") (py "alice"))
                  (Some sync_response)) example_observer) =
      trace example_observer ++
        [HttpPost (playback_body (JFloat ((120000 + 500 - 1000) # 1000)))].
Proof.
  split; [reflexivity|]. split; [reflexivity|]. split; [reflexivity|].
  exact (@sync_round_trip example_python example_producer example_bob example_observer
           example_world example_world example_world
           (py "ABCDE") (py "alice") (py "bob") (py "bob") example_sync_req 500 1000 120000
           eq_refl eq_refl eq_refl eq_refl eq_refl eq_refl eq_refl no_slash_in_alice eq_refl
           eq_refl eq_refl eq_refl eq_refl eq_refl eq_refl eq_refl eq_refl).
Defined.

Lemma offline_example :
  online (run _on_disconnect example_producer) = false /\
  network (trace (run (@handler example_python
                         (Deliver example_world (py "ABCDE/alice") (Some (JObj example_sync_req))))
                    (run _on_disconnect example_producer)))
  = network (trace (run _on_disconnect example_producer)).
Proof.
  split; [reflexivity|].
  exact (@offline_application_sends_nothing example_python
           (Deliver example_world (py "ABCDE/alice") (Some (JObj example_sync_req)))
           (run _on_disconnect example_producer) eq_refl).
Defined.

Lemma mqtt_config_example :
  truthy (@strip example_python (py "localhost")) = true /\
  @int_of_str example_python (py "1883") = Some 1883 /\
  fst (@validate_mqtt_config example_python (py "localhost") (py "1883")) = true.
Proof.
  split; [reflexivity|]. split; [reflexivity|].
  apply (proj1 (@validate_mqtt_config_accepts example_python (py "localhost") (py "1883"))).
  split; [reflexivity|]. split; [reflexivity|].
  exists 1883. split; [reflexivity|]. lia.
Defined.

Lemma remove_button_example :
  is_user (producer_view example_producer) (py "bob") = true /\
  is_user (producer_view (run (remove_user (py "bob")) example_producer)) (py "bob") = false.
Proof.
  split; [reflexivity|].
  exact (proj1 (proj2 (proj2 (proj2 (proj2 (proj2
           (remove_user_effect example_producer (py "bob")))))) eq_refl)).
Defined.

Lemma typed_delay_example :
  current_view example_producer = PRODUCER /\
  online example_producer = true /\
  get_main_observer (producer_view example_producer) = Some (py "bob") /\
  connected_users (producer_view example_producer) !! py "alice" = Some (Alive (py "500")) /\
  trace (run (@_on_message example_python example_world (topic_of (py "ABCDE") (py "alice"))
                (Some (JObj example_sync_req)))
           (run (edit_time_entry (py "alice") (py "750")) example_producer)) =
    trace example_producer ++
      [Publish (topic_of (py "ABCDE") (py "bob"))
         (JObj [(py "action", JStr (py "TIME_REQ"));
                (py "requester", JStr (py "alice"));
                (py "requester_delay",
                 JInt (default 1000 (@int_of_str example_python (py "750"))));
                (py "main_observer_delay", JInt 1000)])].
Proof.
  split; [reflexivity|]. split; [reflexivity|]. split; [reflexivity|].
  split; [reflexivity|].
  assert (Hne : py "bob" <> py "alice") by discriminate.
  exact (proj1 (@typed_delay_is_relayed example_python example_producer example_world
                  (py "ABCDE") (py "alice") (py "bob") (py "750") example_sync_req 1000
                  eq_refl eq_refl eq_refl eq_refl eq_refl no_slash_in_alice eq_refl Hne
                  eq_refl)
           (py "500") eq_refl).
Defined.

Lemma assign_example :
  current_view example_producer = PRODUCER /\
  @get_user_time example_python (producer_view example_producer) (py "alice")
    = Returns (Some 500) /\
  trace (run (@_on_assign_clicked example_python (py "alice")) example_producer) =
    trace example_producer ++
      [Publish (topic_of (py "ABCDE") (py "alice"))
         (JObj [(py "action", JStr (py "ASSIGN")); (py "time_ms", JInt 500)])].
Proof.
  split; [reflexivity|]. split; [reflexivity|].
  exact (proj2 (proj1 (@assign_publishes_the_entry_delay example_python example_producer
                         (py "alice"))
                  (py "ABCDE") 500 eq_refl eq_refl eq_refl eq_refl eq_refl)).
Defined.

Lemma sync_request_example :
  current_room_id (observer_view example_bob) = Some (py "ABCDE") /\
  current_username (observer_view example_bob) = Some (py "bob") /\
  trace (run on_sync_requested example_bob) =
    trace example_bob ++
      [Publish (topic_of (py "ABCDE") (py "bob")) (JObj [(py "action", JStr (py "SYNC_REQ"))])].
Proof.
  split; [reflexivity|]. split; [reflexivity|].
  exact (proj2 (proj2 (proj2 (sync_request_behaviour example_bob)))
           (py "ABCDE") (py "bob") eq_refl eq_refl eq_refl eq_refl).
Defined.

(** Elsewhere than in the mode selection the producer mode may not be
    entered at all: from the observer view with its hotkey removed, [hide]
    raises and nothing changes. *)
Lemma producer_mode_needs_hidden_view :
  let a := @after example_python example_second_visit initial_app in
  current_view a = OBSERVER /\
  on_mode_selected (py "FGHIJ") (py "producer") a = (Raises KeyError, a).
Proof. vm_compute. split; reflexivity. Qed.

Lemma producer_mode_example :
  let a := run on_back_requested example_producer in
  current_view a = MODE_SELECTION /\
  is_user (producer_view a) (py "alice") = true /\
  run (add_user (py "alice")) (run (on_mode_selected (py "FGHIJ") (py "producer")) a)
  = run (on_mode_selected (py "FGHIJ") (py "producer")) a.
Proof.
  intros a. split; [reflexivity|]. split; [reflexivity|].
  exact (proj1 (proj2 (proj2 (proj2 (proj2 (proj2
           (producer_mode_keeps_old_roster a (py "FGHIJ") eq_refl))))))
           (py "alice") eq_refl).
Defined.

Lemma connection_example :
  online (run (_on_connect 5) (run (on_connect_requested (Returns tt)) initial_app)) = false.
Proof.
  exact (proj2 (proj2 (proj2 (proj2 (connection_outcome initial_app (Returns tt) 5))) eq_refl)).
Defined.
